(** * Idea-management backend: a shallow embedding of [server.js]

    The service is a set of Express route handlers over four PostgreSQL
    tables.  Each handler is embedded as a function in a state-and-exception
    monad over the database; a thrown exception keeps the database as the
    statements executed so far left it, since the handlers open no
    transaction.  Libraries the file only calls (bcrypt, jsonwebtoken and
    PostgreSQL's integer input routine) are taken as one record of
    functions. *)

From Stdlib Require Import ZArith List String Ascii Bool Lia DecimalString.
Import ListNotations.
Local Open Scope string_scope.
Local Open Scope Z_scope.

(** ** JavaScript values carried by a JSON request body *)

(** A JavaScript number, as far as the handlers look at one: whether it is
    falsy (0, -0 or NaN) and the text [Number.prototype.toString] gives for
    it, which is what node-postgres binds ("1e+21" for 10^21, "1.5"). *)
Record number : Type := mkNumber {
  number_is_zero : bool;
  number_text : string
}.

(** Values of a parsed JSON body; [JUndefined] is what reading an absent
    property gives.  An array or an object is carried by the text
    node-postgres binds for it (an array literal, resp. its JSON). *)
Inductive jsval : Type :=
| JUndefined
| JNull
| JBool (b : bool)
| JNum (n : number)
| JStr (s : string)
| JObject (bound : string).

(** [!v] is [negb (truthy v)]. *)
Definition truthy (v : jsval) : bool :=
  match v with
  | JUndefined | JNull => false
  | JBool b => b
  | JNum n => negb (number_is_zero n)
  | JStr s => negb (s =? "")%string
  | JObject _ => true
  end.

(** [v !== undefined]. *)
Definition is_defined (v : jsval) : bool :=
  match v with
  | JUndefined => false
  | _ => true
  end.

(** A destructuring default, [{ k = d } = obj]: used only when the property
    is [undefined]. *)
Definition or_default (v d : jsval) : jsval :=
  match v with
  | JUndefined => d
  | _ => v
  end.

Definition object : Type := list (string * jsval).

(** Property read [o.k]. *)
Fixpoint prop (o : object) (k : string) : jsval :=
  match o with
  | [] => JUndefined
  | (k', v) :: o' => if (k' =? k)%string then v else prop o' k
  end.

Definition decimal (n : Z) : string := NilZero.string_of_int (Z.to_int n).

(** How node-postgres binds a query parameter: [undefined] and [null] become
    SQL NULL, every other value a text. *)
Definition pg_text (v : jsval) : option string :=
  match v with
  | JUndefined | JNull => None
  | JBool true => Some "true"
  | JBool false => Some "false"
  | JNum n => Some (number_text n)
  | JStr s => Some s
  | JObject bound => Some bound
  end.

(** Whether a text holds the character U+0000, which PostgreSQL takes in no
    text parameter. *)
Fixpoint has_nul (s : string) : bool :=
  match s with
  | EmptyString => false
  | String a s' => Ascii.eqb a Ascii.zero || has_nul s'
  end.

(** Whether PostgreSQL takes a value as a parameter. *)
Definition accepted (v : jsval) : bool :=
  match pg_text v with
  | Some s => negb (has_nul s)
  | None => true
  end.

(** [s.split(c)]. *)
Fixpoint split_on (c : ascii) (s : string) : list string :=
  match s with
  | EmptyString => [EmptyString]
  | String a s' =>
      if Ascii.eqb a c then EmptyString :: split_on c s'
      else match split_on c s' with
           | [] => [String a EmptyString]
           | w :: ws => String a w :: ws
           end
  end.

(** ** Rows of the four tables (columns of the CREATE TABLE statements) *)

Record user : Type := mkUser {
  u_id : Z;
  u_username : string;
  u_email : string;
  u_password : string;
  u_name : string
}.

Record idea : Type := mkIdea {
  i_id : Z;
  i_title : string;
  i_description : option string;
  i_short_description : option string;
  i_area : option string;
  i_status : option string;
  i_user_id : Z;
  i_created_at : Z
}.

Record comment : Type := mkComment {
  c_id : Z;
  c_idea_id : Z;
  c_user_id : Z;
  c_username : string;
  c_comment : string;
  c_created_at : Z;
  c_parent_id : option Z
}.

Record feedback_row : Type := mkFeedback {
  f_id : Z;
  f_email : option string;
  f_feedback : string;
  f_created_at : Z
}.

(** A table: its rows in insertion order and the next value of the SERIAL
    sequence behind its [id] column. *)
Record table (A : Type) : Type := mkTable {
  rows : list A;
  nextval : Z
}.
Arguments mkTable {A} rows nextval.
Arguments rows {A} t.
Arguments nextval {A} t.

Definition fresh_table {A : Type} : table A := mkTable [] 1.

(** The database: a relation is [None] until CREATE TABLE made it and after
    DROP TABLE removed it. *)
Record database : Type := mkDb {
  users : option (table user);
  ideas : option (table idea);
  comments : option (table comment);
  feedback : option (table feedback_row)
}.

Inductive relname : Type := Users | Ideas | Comments | Feedback.

Definition relname_text (r : relname) : string :=
  match r with
  | Users => "users"
  | Ideas => "ideas"
  | Comments => "comments"
  | Feedback => "feedback"
  end.

(** ** Exceptions and the handler monad *)

Inductive db_error : Type :=
| UndefinedTable (r : relname)
| InvalidInteger (s : string)
| InvalidByteSequence
| NotNullViolation (column : string)
| UniqueViolation (column : string)
| ForeignKeyViolation (constraint : string)
| DependentObjects (r : relname).

Inductive exn : Type :=
| DbError (e : db_error)
| LibraryError (what : string)
| JsError (message : string)
| ReferenceError (name : string).

Inductive result (A : Type) : Type :=
| Ok (a : A)
| Throw (e : exn).
Arguments Ok {A} a.
Arguments Throw {A} e.

(** An asynchronous computation over the database: its value or the
    exception it rejects with, and the database it leaves. *)
Definition M (A : Type) : Type := database -> result A * database.

Definition ret {A : Type} (a : A) : M A := fun db => (Ok a, db).

Definition throw {A : Type} (e : exn) : M A := fun db => (Throw e, db).

Definition bind {A B : Type} (m : M A) (k : A -> M B) : M B :=
  fun db =>
    match m db with
    | (Ok a, db') => k a db'
    | (Throw e, db') => (Throw e, db')
    end.

(** [try { m } catch (err) { h err }]. *)
Definition try_catch {A : Type} (m : M A) (h : exn -> M A) : M A :=
  fun db =>
    match m db with
    | (Ok a, db') => (Ok a, db')
    | (Throw e, db') => h e db'
    end.

Definition lift {A : Type} (r : result A) : M A := fun db => (r, db).

Notation "x <- m ;; k" := (bind m (fun x => k))
  (at level 61, m at next level, right associativity).

(** The libraries the handlers call. *)
Record libs : Type := mkLibs {
  (* bcrypt.hash(data, rounds) *)
  bcrypt_hash : jsval -> Z -> result string;
  (* bcrypt.compare(data, hash) *)
  bcrypt_compare : jsval -> string -> result bool;
  (* jwt.sign({ id }, JWT_SECRET, { expiresIn: "1h" }) at a given time *)
  jwt_sign : Z -> Z -> string;
  (* jwt.verify(token, JWT_SECRET) at a given time: the id of the payload *)
  jwt_verify : string -> Z -> result Z;
  (* PostgreSQL reading a text parameter as an INTEGER; None when it
     rejects the text (malformed, out of range, holding U+0000) *)
  int4in : string -> option Z
}.

(** ** Access to the relations *)

Definition relation {A : Type} (r : relname) (get : database -> option (table A))
  : M (table A) :=
  fun db =>
    match get db with
    | Some t => (Ok t, db)
    | None => (Throw (DbError (UndefinedTable r)), db)
    end.

Definition put_users (t : table user) : M unit :=
  fun db => (Ok tt, mkDb (Some t) (ideas db) (comments db) (feedback db)).

Definition put_ideas (t : table idea) : M unit :=
  fun db => (Ok tt, mkDb (users db) (Some t) (comments db) (feedback db)).

Definition put_comments (t : table comment) : M unit :=
  fun db => (Ok tt, mkDb (users db) (ideas db) (Some t) (feedback db)).

Definition put_feedback (t : table feedback_row) : M unit :=
  fun db => (Ok tt, mkDb (users db) (ideas db) (comments db) (Some t)).

(** A TEXT column compared with a bound parameter: NULL equals nothing. *)
Definition text_eq (column : string) (p : option string) : bool :=
  match p with
  | Some s => (column =? s)%string
  | None => false
  end.

(** An INTEGER column compared with a bound parameter. *)
Definition int_eq (column : Z) (p : option Z) : bool :=
  match p with
  | Some k => column =? k
  | None => false
  end.

(** A parameter bound where an INTEGER is expected: its text goes through
    PostgreSQL's input routine. *)
Definition pg_int (L : libs) (v : jsval) : M (option Z) :=
  match pg_text v with
  | None => ret None
  | Some s =>
      match int4in L s with
      | Some k => ret (Some k)
      | None => throw (DbError (InvalidInteger s))
      end
  end.

(** Binding the parameters of a statement, which comes before it runs: one
    text with U+0000 and the statement is rejected with nothing done. *)
Definition binding (params : list jsval) : M unit :=
  if forallb accepted params then ret tt
  else throw (DbError InvalidByteSequence).

Definition not_null {A : Type} (column : string) (v : option A) : M A :=
  match v with
  | Some a => ret a
  | None => throw (DbError (NotNullViolation column))
  end.

(** The value a column of an INSERT receives: the one bound to it when the
    statement lists the column (an explicit NULL included), the column's
    DEFAULT only when the statement does not list it. *)
Definition column_value {A : Type} (listed : option A) (dflt : A) : A :=
  match listed with
  | Some v => v
  | None => dflt
  end.

(** [$k] of a parameter array. *)
Definition param (values : list jsval) (k : Z) : jsval :=
  nth (Z.to_nat (k - 1)) values JUndefined.

(** ORDER BY key DESC, rows of equal key kept in table order. *)
Fixpoint insert_desc {A : Type} (key : A -> Z) (x : A) (l : list A) : list A :=
  match l with
  | [] => [x]
  | y :: l' => if key y <=? key x then x :: l else y :: insert_desc key x l'
  end.

Definition order_by_desc {A : Type} (key : A -> Z) (l : list A) : list A :=
  fold_right (insert_desc key) [] l.

(** ** Responses *)

Record auth_user : Type := mkAuthUser {
  au_id : Z;
  au_username : string;
  au_email : string
}.

(** Row of GET /api/ideas: the idea's columns ([user_id] is [u.id], equal to
    the idea's by the join) and the owner's username. *)
Record idea_with_owner : Type := mkIdeaWithOwner {
  io_idea : idea;
  io_username : string
}.

(** Row of GET /api/ideas/:id: as above with the owner's name. *)
Record idea_detail : Type := mkIdeaDetail {
  d_idea : idea;
  d_name : string;
  d_username : string
}.

(** Row of GET /api/my-ideas: no owner column. *)
Record my_idea : Type := mkMyIdea {
  m_id : Z;
  m_title : string;
  m_description : option string;
  m_short_description : option string;
  m_area : option string;
  m_status : option string;
  m_created_at : Z
}.

Inductive json : Type :=
| Message (message : string)
| Success
| SuccessMessage (message : string)
| Token (token : string)
| Pong (dbTime : Z)
| CurrentUser (u : auth_user)
| IdeaList (l : list idea_with_owner)
| MyIdeaList (l : list my_idea)
| IdeaDetail (i : idea_detail)
| IdeaRow (r : option idea)
| CommentRow (r : option comment)
| CommentList (l : list comment).

Record response : Type := mkResponse {
  status : Z;
  body : json
}.

(** [res.status(code).json(b)]; [res.json(b)] alone answers 200. *)
Definition reply (code : Z) (b : json) : M response := ret (mkResponse code b).

Definition handleError (err : exn) : M response :=
  reply 500 (Message "Server error.").

(** A request, with the readings of the two clocks while it is served:
    [now] is [new Date()] in the server, [db_now] the database's
    CURRENT_TIMESTAMP. *)
Record request : Type := mkRequest {
  authorization : option string;
  params_id : string;
  req_body : object;
  now : Z;
  db_now : Z
}.

(** ** Statements on [users] *)

Definition auth_columns (u : user) : auth_user :=
  mkAuthUser (u_id u) (u_username u) (u_email u).

(** SELECT id, username, email FROM users WHERE id = $1 *)
Definition select_user_by_id (id : Z) : M (list auth_user) :=
  t <- relation Users users ;;
  ret (map auth_columns (filter (fun u => u_id u =? id) (rows t))).

(** SELECT id FROM users WHERE username = $1 OR email = $2 *)
Definition select_ids_by_username_or_email (username email : jsval)
  : M (list Z) :=
  t <- relation Users users ;;
  _ <- binding [username; email] ;;
  ret (map u_id
         (filter (fun u => text_eq (u_username u) (pg_text username)
                           || text_eq (u_email u) (pg_text email))
            (rows t))).

(** INSERT INTO users (username, email, password, name)
    VALUES ($1, $2, $3, $4).  The sequence value taken for [id] stays taken
    when a constraint rejects the row. *)
Definition insert_user (username email password name : jsval) : M unit :=
  t <- relation Users users ;;
  _ <- binding [username; email; password; name] ;;
  let id := nextval t in
  _ <- put_users (mkTable (rows t) (id + 1)) ;;
  username' <- not_null "username" (pg_text username) ;;
  email' <- not_null "email" (pg_text email) ;;
  password' <- not_null "password" (pg_text password) ;;
  name' <- not_null "name" (pg_text name) ;;
  if existsb (fun u => (u_username u =? username')%string) (rows t)
  then throw (DbError (UniqueViolation "username"))
  else if existsb (fun u => (u_email u =? email')%string) (rows t)
  then throw (DbError (UniqueViolation "email"))
  else put_users
         (mkTable (rows t ++ [mkUser id username' email' password' name'])
            (id + 1)).

(** SELECT id, password FROM users WHERE email = $1 *)
Definition select_credentials_by_email (email : jsval) : M (list (Z * string)) :=
  t <- relation Users users ;;
  _ <- binding [email] ;;
  ret (map (fun u => (u_id u, u_password u))
         (filter (fun u => text_eq (u_email u) (pg_text email)) (rows t))).

(** ** Auth helper *)

(** [authenticateToken(req, res, next)].  The [try] covers token
    verification and the user lookup; [next] hands over to the route's
    handler, whose own failures do not come back into this [catch]. *)
Definition authenticateToken (L : libs) (req : request)
    (next : auth_user -> M response) : M response :=
  match authorization req with
  | None => reply 401 (Message "Missing or invalid token.")
  | Some auth =>
      if negb (prefix "Bearer " auth)
      then reply 401 (Message "Missing or invalid token.")
      else
        let token := nth 1 (split_on " "%char auth) "" in
        fun db =>
          match (payload_id <- lift (jwt_verify L token (now req)) ;;
                 found <- select_user_by_id payload_id ;;
                 match found with
                 | [] => throw (JsError "No such user")
                 | u :: _ => ret u
                 end) db with
          | (Ok u, db') => next u db'
          | (Throw _, db') =>
              reply 401 (Message "Invalid or expired token.") db'
          end
  end.

(** ** Registration, login, current user *)

(** POST /api/register *)
Definition register (L : libs) (req : request) : M response :=
  try_catch
    (let username := prop (req_body req) "username" in
     let email := prop (req_body req) "email" in
     let password := prop (req_body req) "password" in
     let name := prop (req_body req) "name" in
     if negb (truthy username) || negb (truthy email)
        || negb (truthy password) || negb (truthy name)
     then reply 400 (Message "All fields required.")
     else
       existsRows <- select_ids_by_username_or_email username email ;;
       if 0 <? Z.of_nat (List.length existsRows)
       then reply 400 (Message "Username or email taken.")
       else
         hash <- lift (bcrypt_hash L password 10) ;;
         _ <- insert_user username email (JStr hash) name ;;
         reply 201 Success)
    handleError.

(** POST /api/login *)
Definition login (L : libs) (req : request) : M response :=
  try_catch
    (let email := prop (req_body req) "email" in
     let password := prop (req_body req) "password" in
     if negb (truthy email) || negb (truthy password)
     then reply 400 (Message "Email & password required.")
     else
       found <- select_credentials_by_email email ;;
       match found with
       | [] => reply 400 (Message "Invalid credentials.")
       | (user_id, user_password) :: _ =>
           ok <- lift (bcrypt_compare L password user_password) ;;
           if negb ok
           then reply 400 (Message "Invalid credentials.")
           else reply 200 (Token (jwt_sign L user_id (now req)))
       end)
    handleError.

(** GET /api/me *)
Definition me (L : libs) (req : request) : M response :=
  authenticateToken L req (fun u => reply 200 (CurrentUser u)).

(** GET /api/ping: [SELECT NOW()] reads the database's clock.  No [try]. *)
Definition ping (req : request) : M response :=
  reply 200 (Pong (db_now req)).

(** ** Statements on [ideas] *)

(** [status TEXT DEFAULT 'New'] *)
Definition ideas_status_default : option string := Some "New".

(** SELECT i.id, ..., i.created_at, u.id AS user_id, u.username
    FROM ideas i JOIN users u ON i.user_id = u.id
    ORDER BY i.created_at DESC *)
Definition select_ideas_with_owner : M (list idea_with_owner) :=
  it <- relation Ideas ideas ;;
  ut <- relation Users users ;;
  ret (order_by_desc (fun r => i_created_at (io_idea r))
         (flat_map
            (fun i => map (fun u => mkIdeaWithOwner i (u_username u))
                        (filter (fun u => i_user_id i =? u_id u) (rows ut)))
            (rows it))).

Definition my_columns (i : idea) : my_idea :=
  mkMyIdea (i_id i) (i_title i) (i_description i) (i_short_description i)
    (i_area i) (i_status i) (i_created_at i).

(** SELECT id, title, description, short_description, area, status,
    created_at FROM ideas WHERE user_id = $1 ORDER BY created_at DESC *)
Definition select_my_ideas (user_id : Z) : M (list my_idea) :=
  it <- relation Ideas ideas ;;
  ret (order_by_desc m_created_at
         (map my_columns (filter (fun i => i_user_id i =? user_id) (rows it)))).

(** SELECT i.id, ..., u.id AS user_id, u.name, u.username
    FROM ideas i INNER JOIN users u ON i.user_id = u.id WHERE i.id = $1 *)
Definition select_idea_detail (L : libs) (id : string) : M (list idea_detail) :=
  it <- relation Ideas ideas ;;
  ut <- relation Users users ;;
  k <- pg_int L (JStr id) ;;
  ret (flat_map
         (fun i => map (fun u => mkIdeaDetail i (u_name u) (u_username u))
                     (filter (fun u => i_user_id i =? u_id u) (rows ut)))
         (filter (fun i => int_eq (i_id i) k) (rows it))).

(** INSERT INTO ideas (title, description, short_description, area, status,
    user_id, created_at) VALUES ($1, ..., $7).  Every column but [id] is
    listed, so each takes the bound parameter. *)
Definition insert_idea (title description short_description area status : jsval)
    (user_id created_at : Z) : M unit :=
  it <- relation Ideas ideas ;;
  _ <- binding [title; description; short_description; area; status] ;;
  let id := nextval it in
  _ <- put_ideas (mkTable (rows it) (id + 1)) ;;
  title' <- not_null "title" (pg_text title) ;;
  ut <- relation Users users ;;
  if existsb (fun u => u_id u =? user_id) (rows ut)
  then put_ideas
         (mkTable
            (rows it ++
             [mkIdea id title' (pg_text description)
                (pg_text short_description) (pg_text area)
                (column_value (Some (pg_text status)) ideas_status_default)
                user_id created_at])
            (id + 1))
  else throw (DbError (ForeignKeyViolation "ideas_user_id_fkey")).

Inductive idea_column : Type := ShortDescription | Description | Status.

Definition set_column (c : idea_column) (v : option string) (i : idea) : idea :=
  match c with
  | ShortDescription =>
      mkIdea (i_id i) (i_title i) (i_description i) v (i_area i) (i_status i)
        (i_user_id i) (i_created_at i)
  | Description =>
      mkIdea (i_id i) (i_title i) v (i_short_description i) (i_area i)
        (i_status i) (i_user_id i) (i_created_at i)
  | Status =>
      mkIdea (i_id i) (i_title i) (i_description i) (i_short_description i)
        (i_area i) v (i_user_id i) (i_created_at i)
  end.

(** The SET list applied to a row: each fragment [column = $k]. *)
Definition assign (fields : list (idea_column * Z)) (values : list jsval)
    (i : idea) : idea :=
  fold_left (fun r f => set_column (fst f) (pg_text (param values (snd f))) r)
    fields i.

(** UPDATE ideas SET <fields> WHERE id = $idx RETURNING * *)
Definition update_ideas (L : libs) (fields : list (idea_column * Z)) (idx : Z)
    (values : list jsval) : M (list idea) :=
  it <- relation Ideas ideas ;;
  _ <- binding (map (fun f => param values (snd f)) fields) ;;
  k <- pg_int L (param values idx) ;;
  let hit := fun i => int_eq (i_id i) k in
  _ <- put_ideas
         (mkTable (map (fun i => if hit i then assign fields values i else i)
                     (rows it))
            (nextval it)) ;;
  ret (map (assign fields values) (filter hit (rows it))).

(** SELECT user_id FROM ideas WHERE id = $1 *)
Definition select_idea_owner (L : libs) (id : string) : M (list Z) :=
  it <- relation Ideas ideas ;;
  k <- pg_int L (JStr id) ;;
  ret (map i_user_id (filter (fun i => int_eq (i_id i) k) (rows it))).

(** DELETE FROM ideas WHERE id = $1.  [comments.idea_id REFERENCES ideas(id)]
    has no ON DELETE action: a comment on a row to delete rejects the
    statement. *)
Definition delete_from_ideas (L : libs) (id : string) : M unit :=
  it <- relation Ideas ideas ;;
  k <- pg_int L (JStr id) ;;
  let gone := fun i => int_eq (i_id i) k in
  fun db =>
    let referenced :=
      match comments db with
      | Some ct =>
          existsb (fun c => existsb (fun i => gone i && (c_idea_id c =? i_id i))
                              (rows it))
            (rows ct)
      | None => false
      end in
    if referenced
    then throw (DbError (ForeignKeyViolation "comments_idea_id_fkey")) db
    else put_ideas
           (mkTable (filter (fun i => negb (gone i)) (rows it)) (nextval it)) db.

(** ** Idea routes *)

(** GET /api/ideas *)
Definition list_all_ideas (L : libs) (req : request) : M response :=
  authenticateToken L req (fun _ =>
    try_catch
      (found <- select_ideas_with_owner ;;
       reply 200 (IdeaList found))
      handleError).

(** GET /api/my-ideas *)
Definition list_my_ideas (L : libs) (req : request) : M response :=
  authenticateToken L req (fun u =>
    try_catch
      (found <- select_my_ideas (au_id u) ;;
       reply 200 (MyIdeaList found))
      handleError).

(** GET /api/ideas/:id *)
Definition get_one_idea (L : libs) (req : request) : M response :=
  authenticateToken L req (fun _ =>
    try_catch
      (found <- select_idea_detail L (params_id req) ;;
       match found with
       | [] => reply 404 (Message "Idea not found.")
       | i :: _ => reply 200 (IdeaDetail i)
       end)
      handleError).

(** The handler of POST /api/ideas.  The body of the [async] function is
    not inside a [try]: a rejected query rejects the handler. *)
Definition create_idea_handler (u : auth_user) (req : request) : M response :=
  let title := prop (req_body req) "title" in
  let area := prop (req_body req) "area" in
  let description := prop (req_body req) "description" in
  let status := prop (req_body req) "status" in
  let short_description := prop (req_body req) "short_description" in
  if negb (truthy title)
  then reply 400 (Message "Title required.")
  else
    _ <- insert_idea title description short_description area status
           (au_id u) (now req) ;;
    reply 201 Success.

(** POST /api/ideas; [upload.single("file")] leaves a JSON body as it is. *)
Definition create_idea (L : libs) (req : request) : M response :=
  authenticateToken L req (fun u => create_idea_handler u req).

(** The three accumulators of the update handler. *)
Record patch : Type := mkPatch {
  fields : list (idea_column * Z);
  values : list jsval;
  idx : Z
}.

(** [if (v !== undefined) { fields.push(`c = $${idx++}`); values.push(v); }] *)
Definition push_if_defined (c : idea_column) (v : jsval) (p : patch) : patch :=
  if is_defined v
  then mkPatch (fields p ++ [(c, idx p)]) (values p ++ [v]) (idx p + 1)
  else p.

Definition build_patch (b : object) : patch :=
  let short_description := or_default (prop b "short_description") (JStr "") in
  let description := or_default (prop b "description") (JStr "") in
  let status := or_default (prop b "status") (JStr "") in
  push_if_defined Status status
    (push_if_defined Description description
       (push_if_defined ShortDescription short_description
          (mkPatch [] [] 1))).

Definition update_idea_handler (L : libs) (req : request) : M response :=
  try_catch
    (let p := build_patch (req_body req) in
     if Z.of_nat (List.length (fields p)) =? 0
     then reply 400 (Message "No fields to update.")
     else
       found <- update_ideas L (fields p) (idx p)
                  (values p ++ [JStr (params_id req)]) ;;
       reply 200 (IdeaRow (hd_error found)))
    handleError.

(** PATCH /api/ideas/:id.  The handler never reads [req.user]. *)
Definition update_idea (L : libs) (req : request) : M response :=
  authenticateToken L req (fun _ => update_idea_handler L req).

Definition delete_idea_handler (L : libs) (u : auth_user) (req : request)
  : M response :=
  try_catch
    (existingRows <- select_idea_owner L (params_id req) ;;
     match existingRows with
     | [] => reply 403 (Message "Not your idea.")
     | existing_user_id :: _ =>
         if negb (existing_user_id =? au_id u)
         then reply 403 (Message "Not your idea.")
         else
           _ <- delete_from_ideas L (params_id req) ;;
           reply 200 Success
     end)
    handleError.

(** DELETE /api/ideas/:id *)
Definition delete_idea (L : libs) (req : request) : M response :=
  authenticateToken L req (fun u => delete_idea_handler L u req).

(** ** Statements on [comments] *)

(** INSERT INTO comments (idea_id, user_id, username, comment, created_at,
    parent_id) VALUES ($1, ..., $6) RETURNING *.  The three foreign keys are
    checked on the table as the statement leaves it. *)
Definition insert_comment (L : libs) (idea_id : string) (user_id : Z)
    (username : string) (text : jsval) (created_at : Z) (parent_id : jsval)
  : M (list comment) :=
  ct <- relation Comments comments ;;
  _ <- binding [JStr username; text] ;;
  idea_id' <- pg_int L (JStr idea_id) ;;
  parent_id' <- pg_int L parent_id ;;
  let id := nextval ct in
  _ <- put_comments (mkTable (rows ct) (id + 1)) ;;
  idea_id'' <- not_null "idea_id" idea_id' ;;
  text' <- not_null "comment" (pg_text text) ;;
  it <- relation Ideas ideas ;;
  ut <- relation Users users ;;
  let row :=
    mkComment id idea_id'' user_id username text' created_at parent_id' in
  if negb (existsb (fun i => i_id i =? idea_id'') (rows it))
  then throw (DbError (ForeignKeyViolation "comments_idea_id_fkey"))
  else if negb (existsb (fun u => u_id u =? user_id) (rows ut))
  then throw (DbError (ForeignKeyViolation "comments_user_id_fkey"))
  else if match parent_id' with
          | Some p => negb (existsb (fun c => c_id c =? p) (rows ct ++ [row]))
          | None => false
          end
  then throw (DbError (ForeignKeyViolation "comments_parent_id_fkey"))
  else
    _ <- put_comments (mkTable (rows ct ++ [row]) (id + 1)) ;;
    ret [row].

(** SELECT * FROM comments WHERE idea_id = $1 ORDER BY created_at DESC *)
Definition select_comments_of_idea (L : libs) (idea_id : string)
  : M (list comment) :=
  ct <- relation Comments comments ;;
  k <- pg_int L (JStr idea_id) ;;
  ret (order_by_desc c_created_at
         (filter (fun c => int_eq (c_idea_id c) k) (rows ct))).

(** SELECT * FROM comments WHERE id = $1 *)
Definition select_comment_by_id (L : libs) (id : string) : M (list comment) :=
  ct <- relation Comments comments ;;
  k <- pg_int L (JStr id) ;;
  ret (filter (fun c => int_eq (c_id c) k) (rows ct)).

(** Whether a comment's [parent_id] points at one of [deleted]. *)
Definition refers_to (deleted : list comment) (c : comment) : bool :=
  match c_parent_id c with
  | Some p => existsb (fun d => c_id d =? p) deleted
  | None => false
  end.

(** DELETE FROM comments WHERE <gone>.  [parent_id REFERENCES comments(id)]
    has no ON DELETE action: the statement is rejected, and deletes nothing,
    when a row it keeps refers to a row it deletes. *)
Definition delete_from_comments (gone : comment -> bool) : M unit :=
  ct <- relation Comments comments ;;
  let deleted := filter gone (rows ct) in
  let kept := filter (fun c => negb (gone c)) (rows ct) in
  if existsb (refers_to deleted) kept
  then throw (DbError (ForeignKeyViolation "comments_parent_id_fkey"))
  else put_comments (mkTable kept (nextval ct)).

(** DELETE FROM comments WHERE id = $1 *)
Definition delete_comment_by_id (L : libs) (id : string) : M unit :=
  k <- pg_int L (JStr id) ;;
  delete_from_comments (fun c => int_eq (c_id c) k).

(** DELETE FROM comments WHERE parent_id = $1 *)
Definition delete_comments_by_parent (L : libs) (id : string) : M unit :=
  k <- pg_int L (JStr id) ;;
  delete_from_comments
    (fun c => match c_parent_id c with
              | Some p => int_eq p k
              | None => false
              end).

(** ** Comment routes *)

(** POST /api/ideas/:id/comments *)
Definition post_comment (L : libs) (req : request) : M response :=
  authenticateToken L req (fun u =>
    try_catch
      (let text := prop (req_body req) "comment" in
       let parentId := prop (req_body req) "parentId" in
       if negb (truthy text)
       then reply 400 (Message "Comment required.")
       else
         inserted <- insert_comment L (params_id req) (au_id u)
                       (au_username u) text (now req) parentId ;;
         reply 201 (CommentRow (hd_error inserted)))
      handleError).

(** GET /api/ideas/:id/comments *)
Definition get_comments (L : libs) (req : request) : M response :=
  authenticateToken L req (fun _ =>
    try_catch
      (found <- select_comments_of_idea L (params_id req) ;;
       reply 200 (CommentList found))
      handleError).

(** [if (comment.parent_id)]: a number is truthy unless it is 0. *)
Definition truthy_id (v : option Z) : bool :=
  match v with
  | Some p => negb (p =? 0)
  | None => false
  end.

Definition delete_comment_handler (L : libs) (u : auth_user) (req : request)
  : M response :=
  try_catch
    (found <- select_comment_by_id L (params_id req) ;;
     match found with
     | [] => reply 404 (Message "Comment not found.")
     | c :: _ =>
         if negb (c_user_id c =? au_id u)
         then reply 403 (Message "Not your comment.")
         else
           _ <- (if truthy_id (c_parent_id c)
                 then delete_comment_by_id L (params_id req)
                 else
                   _ <- delete_comments_by_parent L (params_id req) ;;
                   delete_comment_by_id L (params_id req)) ;;
           reply 200 Success
     end)
    handleError.

(** DELETE /api/comments/:id *)
Definition delete_comment (L : libs) (req : request) : M response :=
  authenticateToken L req (fun u => delete_comment_handler L u req).

(** ** Feedback *)

Inductive feedback_column : Type := FeedbackText | FeedbackEmail.

Definition feedback_column_eqb (a b : feedback_column) : bool :=
  match a, b with
  | FeedbackText, FeedbackText | FeedbackEmail, FeedbackEmail => true
  | _, _ => false
  end.

(** The parameter an INSERT binds to column [c], if its column list names
    [c]: the n-th column takes the n-th placeholder. *)
Fixpoint bound_to (c : feedback_column) (columns : list feedback_column)
    (placeholders : list Z) (values : list jsval) : option jsval :=
  match columns, placeholders with
  | f :: columns', k :: placeholders' =>
      if feedback_column_eqb f c then Some (param values k)
      else bound_to c columns' placeholders' values
  | _, _ => None
  end.

(** INSERT INTO feedback (<columns>) VALUES (<placeholders>) RETURNING *;
    [created_at] is never listed and takes CURRENT_TIMESTAMP. *)
Definition insert_feedback (columns : list feedback_column)
    (placeholders : list Z) (values : list jsval) (clock : Z) : M unit :=
  ft <- relation Feedback feedback ;;
  _ <- binding values ;;
  let id := nextval ft in
  _ <- put_feedback (mkTable (rows ft) (id + 1)) ;;
  let listed := fun c =>
    option_map pg_text (bound_to c columns placeholders values) in
  text <- not_null "feedback" (column_value (listed FeedbackText) None) ;;
  put_feedback
    (mkTable
       (rows ft ++
        [mkFeedback id (column_value (listed FeedbackEmail) None) text clock])
       (id + 1)).

(** POST /api/feedback *)
Definition post_feedback (req : request) : M response :=
  try_catch
    (let email := prop (req_body req) "email" in
     let text := prop (req_body req) "feedback" in
     if negb (truthy text)
     then reply 400 (Message "Email & feedback required.")
     else
       let columns := [FeedbackText] in
       let values := [text] in
       let placeholders := [1] in
       let '(columns, values, placeholders) :=
         if is_defined email
         then ((columns ++ [FeedbackEmail])%list, (values ++ [email])%list,
               (placeholders ++ [Z.of_nat (List.length placeholders) + 1])%list)
         else (columns, values, placeholders) in
       _ <- insert_feedback columns placeholders values (db_now req) ;;
       reply 201 (SuccessMessage "Feedback submitted."))
    handleError.

(** ** Schema statements and the create-table handlers *)

Definition is_some {A : Type} (o : option A) : bool :=
  match o with
  | Some _ => true
  | None => false
  end.

Definition exists_table (r : relname) (db : database) : bool :=
  match r with
  | Users => is_some (users db)
  | Ideas => is_some (ideas db)
  | Comments => is_some (comments db)
  | Feedback => is_some (feedback db)
  end.

(** The tables a table's REFERENCES clauses name (itself left out). *)
Definition references (r : relname) : list relname :=
  match r with
  | Users => []
  | Ideas => [Users]
  | Comments => [Ideas; Users]
  | Feedback => []
  end.

Definition relname_eqb (a b : relname) : bool :=
  match a, b with
  | Users, Users | Ideas, Ideas | Comments, Comments | Feedback, Feedback =>
      true
  | _, _ => false
  end.

Definition all_relations : list relname := [Users; Ideas; Comments; Feedback].

Definition set_table (r : relname) (present : bool) (db : database) : database :=
  match r with
  | Users =>
      mkDb (if present then Some fresh_table else None) (ideas db)
        (comments db) (feedback db)
  | Ideas =>
      mkDb (users db) (if present then Some fresh_table else None)
        (comments db) (feedback db)
  | Comments =>
      mkDb (users db) (ideas db)
        (if present then Some fresh_table else None) (feedback db)
  | Feedback =>
      mkDb (users db) (ideas db) (comments db)
        (if present then Some fresh_table else None)
  end.

(** DROP TABLE IF EXISTS r: refused while another table references [r]. *)
Definition drop_table_if_exists (r : relname) : M unit :=
  fun db =>
    if negb (exists_table r db) then (Ok tt, db)
    else if existsb (fun d => exists_table d db
                              && existsb (relname_eqb r) (references d))
              all_relations
    then (Throw (DbError (DependentObjects r)), db)
    else (Ok tt, set_table r false db).

(** CREATE TABLE IF NOT EXISTS r (...): the referenced tables must exist;
    the new table is empty and its sequence starts at 1. *)
Definition create_table_if_not_exists (r : relname) : M unit :=
  fun db =>
    if exists_table r db then (Ok tt, db)
    else
      match find (fun d => negb (exists_table d db)) (references r) with
      | Some missing => (Throw (DbError (UndefinedTable missing)), db)
      | None => (Ok tt, set_table r true db)
      end.

Definition create_table (r : relname) (created failed : string) : M response :=
  try_catch
    (_ <- drop_table_if_exists r ;;
     _ <- create_table_if_not_exists r ;;
     reply 200 (Message created))
    (fun _ => reply 500 (Message failed)).

Definition create_table_users (req : request) : M response :=
  create_table Users "Users table created." "Error creating users table.".

Definition create_table_ideas (req : request) : M response :=
  create_table Ideas "Users table created." "Error creating users table.".

Definition create_table_comments (req : request) : M response :=
  create_table Comments "Comments table created."
    "Error creating comments table.".

Definition create_table_feedback (req : request) : M response :=
  create_table Feedback "Feedback table created."
    "Error creating feedback table.".

(** ** The module's top level: building the application *)

Inductive method : Type := GET | POST | PATCH | DELETE.

Inductive endpoint : Type :=
| Ping | Register | Login | Me
| ListAllIdeas | ListMyIdeas | GetOneIdea | CreateIdea | UpdateIdea | DeleteIdea
| PostComment | GetComments | DeleteComment | PostFeedback
| CreateTableUsers | CreateTableIdeas | CreateTableComments
| CreateTableFeedback.

Inductive layer : Type :=
| Cors | JsonBody | RequestLog | NotFoundFallback | ErrorFallback.

(** The top-level statements with an effect on the application.  A
    [const] or [function] declaration brings a name into scope; the others
    are method calls on the object a name denotes. *)
Inductive statement : Type :=
| Decl (name : string)
| Use (receiver : string) (l : layer)
| Route (receiver : string) (m : method) (path : string) (e : endpoint)
| Listen (receiver : string).

Record application : Type := mkApp {
  scope : list string;
  layers : list layer;
  routes : list (method * string * endpoint);
  listening : bool
}.

Definition in_scope (name : string) (a : application) : bool :=
  existsb (String.eqb name) (scope a).

(** One statement.  Reading a name that was never declared throws a
    ReferenceError. *)
Definition exec (s : statement) (a : application) : result application :=
  match s with
  | Decl name =>
      Ok (mkApp (name :: scope a) (layers a) (routes a) (listening a))
  | Use receiver l =>
      if in_scope receiver a
      then Ok (mkApp (scope a) (layers a ++ [l]) (routes a) (listening a))
      else Throw (ReferenceError receiver)
  | Route receiver m path e =>
      if in_scope receiver a
      then Ok (mkApp (scope a) (layers a) (routes a ++ [(m, path, e)])
                 (listening a))
      else Throw (ReferenceError receiver)
  | Listen receiver =>
      if in_scope receiver a
      then Ok (mkApp (scope a) (layers a) (routes a) true)
      else Throw (ReferenceError receiver)
  end.

(** Running the module: statements in order, stopping at the first throw
    with the application as built so far. *)
Fixpoint load (program : list statement) (a : application)
  : result unit * application :=
  match program with
  | [] => (Ok tt, a)
  | s :: rest =>
      match exec s a with
      | Ok a' => load rest a'
      | Throw e => (Throw e, a)
      end
  end.

(** [server.js], in source order, the two [function] declarations first
    since they are hoisted. *)
Definition server_js : list statement :=
  [ Decl "express"; Decl "app"; Decl "cors"; Decl "Pool";
    Decl "bcrypt"; Decl "jwt"; Decl "multer"; Decl "upload";
    Decl "db"; Decl "JWT_SECRET"; Decl "handleError";
    Decl "authenticateToken";
    Use "app" Cors; Use "app" JsonBody; Use "app" RequestLog;
    Route "app" GET "/api/ping" Ping;
    Route "app" POST "/api/register" Register;
    Route "app" POST "/api/login" Login;
    Route "app" GET "/api/me" Me;
    Route "app" GET "/api/ideas" ListAllIdeas;
    Route "app" GET "/api/my-ideas" ListMyIdeas;
    Route "app" GET "/api/ideas/:id" GetOneIdea;
    Route "app" POST "/api/ideas" CreateIdea;
    Route "app" PATCH "/api/ideas/:id" UpdateIdea;
    Route "app" DELETE "/api/ideas/:id" DeleteIdea;
    Route "app" POST "/api/ideas/:id/comments" PostComment;
    Route "app" GET "/api/ideas/:id/comments" GetComments;
    Route "app" DELETE "/api/comments/:id" DeleteComment;
    Route "app" POST "/api/feedback" PostFeedback;
    Route "api" GET "/api/create_table_users" CreateTableUsers;
    Route "api" GET "/api/create_table_ideas" CreateTableIdeas;
    Route "api" GET "/api/create_table_comments" CreateTableComments;
    Route "api" GET "/api/create_table_feedback" CreateTableFeedback;
    Decl "PORT";
    Listen "app";
    Use "app" NotFoundFallback;
    Use "app" ErrorFallback ].

Definition empty_application : application := mkApp [] [] [] false.

Definition method_eqb (a b : method) : bool :=
  match a, b with
  | GET, GET | POST, POST | PATCH, PATCH | DELETE, DELETE => true
  | _, _ => false
  end.

(** The endpoint registered for a method and a route path. *)
Definition registered (a : application) (m : method) (path : string)
  : option endpoint :=
  option_map snd
    (find (fun r => method_eqb (fst (fst r)) m
                    && (snd (fst r) =? path)%string)
       (routes a)).

(** What each endpoint runs. *)
Definition run (L : libs) (e : endpoint) (req : request) : M response :=
  match e with
  | Ping => ping req
  | Register => register L req
  | Login => login L req
  | Me => me L req
  | ListAllIdeas => list_all_ideas L req
  | ListMyIdeas => list_my_ideas L req
  | GetOneIdea => get_one_idea L req
  | CreateIdea => create_idea L req
  | UpdateIdea => update_idea L req
  | DeleteIdea => delete_idea L req
  | PostComment => post_comment L req
  | GetComments => get_comments L req
  | DeleteComment => delete_comment L req
  | PostFeedback => post_feedback req
  | CreateTableUsers => create_table_users req
  | CreateTableIdeas => create_table_ideas req
  | CreateTableComments => create_table_comments req
  | CreateTableFeedback => create_table_feedback req
  end.

(** The fallbacks registered last: [(req, res) => ...] for an unmatched
    route and [(err, req, res, next) => ...] for an error passed on. *)
Definition not_found_fallback : M response :=
  reply 404 (Message "Route not found").

Definition error_fallback (err : exn) : M response :=
  reply 500 (Message "Something went wrong!").

(** ** A concrete instance: stand-in libraries and a small database *)

Module Sample.

(** Stand-ins for the libraries: a hash that tags the password, tokens
    [t<id>], decimal integers.  As bcrypt does, [hash] and [compare] reject
    data that is not a string. *)
Definition sample_libs : libs :=
  mkLibs
    (fun data _ =>
       match data with
       | JStr s => Ok ("hash:" ++ s)
       | _ => Throw (LibraryError "bcrypt.hash")
       end)
    (fun data hash =>
       match data with
       | JStr s => Ok (hash =? "hash:" ++ s)%string
       | _ => Throw (LibraryError "bcrypt.compare")
       end)
    (fun id _ => "t" ++ decimal id)
    (fun token _ =>
       match token with
       | String "t" digits =>
           match NilZero.int_of_string digits with
           | Some id => Ok (Z.of_int id)
           | None => Throw (JsError "jwt malformed")
           end
       | _ => Throw (JsError "jwt malformed")
       end)
    (fun s => option_map Z.of_int (NilZero.int_of_string s)).

Definition alice : user :=
  mkUser 1 "alice" "alice@example.org" "hash:wonderland" "Alice".

Definition bob : user := mkUser 2 "bob" "bob@example.org" "hash:builder" "Bob".

Definition two_users : table user := mkTable [alice; bob] 3.

Definition foo : idea := mkIdea 1 "Foo" None None None (Some "New") 1 100.

(** A thread three levels deep on idea 1: a comment by alice, bob's reply
    to it, and alice's reply to that reply. *)
Definition top : comment := mkComment 1 1 1 "alice" "first" 110 None.
Definition reply_to_top : comment := mkComment 2 1 2 "bob" "second" 120 (Some 1).
Definition reply_to_reply : comment :=
  mkComment 3 1 1 "alice" "third" 130 (Some 2).

(** Users only; no other table was created. *)
Definition users_only : database := mkDb (Some two_users) None None None.

(** All four tables, no idea yet. *)
Definition no_ideas : database :=
  mkDb (Some two_users) (Some fresh_table) (Some fresh_table)
    (Some fresh_table).

(** Alice's idea, nobody commented. *)
Definition one_idea : database :=
  mkDb (Some two_users) (Some (mkTable [foo] 2)) (Some fresh_table)
    (Some fresh_table).

(** Alice's idea with one comment on it. *)
Definition commented_idea : database :=
  mkDb (Some two_users) (Some (mkTable [foo] 2)) (Some (mkTable [top] 2))
    (Some fresh_table).

(** Alice's idea with the three-level thread. *)
Definition deep_thread : database :=
  mkDb (Some two_users) (Some (mkTable [foo] 2))
    (Some (mkTable [top; reply_to_top; reply_to_reply] 4))
    (Some fresh_table).

(** Alice's idea with a two-level thread. *)
Definition flat_thread : database :=
  mkDb (Some two_users) (Some (mkTable [foo] 2))
    (Some (mkTable [top; reply_to_top] 3))
    (Some fresh_table).

Definition as_alice (id : string) (b : object) : request :=
  mkRequest (Some "Bearer t1") id b 1000 1001.

Definition as_bob (id : string) (b : object) : request :=
  mkRequest (Some "Bearer t2") id b 1000 1001.

Definition anonymous (b : object) : request := mkRequest None "" b 1000 1001.

End Sample.

(** ** Notions used to state the properties *)

(** The request passes [authenticateToken], which attaches [u] as
    [req.user] and hands over to whatever handler follows. *)
Definition authenticated (L : libs) (req : request) (db : database)
    (u : auth_user) : Prop :=
  forall next, authenticateToken L req next db = next u db.

(** The database with another [ideas] table, resp. [comments] table. *)
Definition with_ideas (db : database) (l : list idea) (seq : Z) : database :=
  mkDb (users db) (Some (mkTable l seq)) (comments db) (feedback db).

Definition with_comments (db : database) (l : list comment) (seq : Z)
  : database :=
  mkDb (users db) (ideas db) (Some (mkTable l seq)) (feedback db).

Definition with_users (db : database) (l : list user) (seq : Z) : database :=
  mkDb (Some (mkTable l seq)) (ideas db) (comments db) (feedback db).

(** PostgreSQL takes the three values an update binds for a body. *)
Definition patch_accepted (b : object) : bool :=
  forallb accepted
    [or_default (prop b "short_description") (JStr "");
     or_default (prop b "description") (JStr "");
     or_default (prop b "status") (JStr "")].

(** PostgreSQL takes the five values the create handler binds from a
    body. *)
Definition idea_accepted (b : object) : bool :=
  forallb accepted
    [prop b "title"; prop b "description"; prop b "short_description";
     prop b "area"; prop b "status"].

(** [c] is a reply to the comment of key [k]. *)
Definition reply_to (k : Z) (c : comment) : bool :=
  match c_parent_id c with
  | Some p => p =? k
  | None => false
  end.

(** ** Further notions: orderings, keys and references *)

From Stdlib Require Import Sorted Permutation.

(** Whether a character occurs in a string. *)
Fixpoint occurs (c : ascii) (s : string) : bool :=
  match s with
  | EmptyString => false
  | String a s' => Ascii.eqb a c || occurs c s'
  end.

(** The request with another Authorization header. *)
Definition with_authorization (req : request) (auth : string) : request :=
  mkRequest (Some auth) (params_id req) (req_body req) (now req) (db_now req).

(** Rows newest first: no row is followed by one with a greater key. *)
Definition newest_first {A : Type} (key : A -> Z) (l : list A) : Prop :=
  StronglySorted (fun a b => key b <= key a) l.

(** What [id SERIAL PRIMARY KEY], [username TEXT UNIQUE] and
    [email TEXT UNIQUE] promise of the users table. *)
Definition users_keyed (t : table user) : Prop :=
  NoDup (map u_id (rows t)) /\
  NoDup (map u_username (rows t)) /\
  NoDup (map u_email (rows t)) /\
  Forall (fun x => u_id x < nextval t) (rows t).

(** Every [parent_id] is the key of a comment of the table. *)
Definition parents_present (l : list comment) : Prop :=
  forall c p, In c l -> c_parent_id c = Some p ->
              exists d, In d l /\ c_id d = p.

(** Every comment is on an idea of the ideas table. *)
Definition comment_ideas_present (db : database) : Prop :=
  forall ct it c,
    comments db = Some ct -> ideas db = Some it -> In c (rows ct) ->
    exists i, In i (rows it) /\ i_id i = c_idea_id c.

Definition with_feedback (db : database) (l : list feedback_row) (seq : Z)
  : database :=
  mkDb (users db) (ideas db) (comments db) (Some (mkTable l seq)).

(** * Properties *)

Ltac unfold_monad :=
  unfold bind, ret, throw, try_catch, lift, reply, handleError, relation,
    not_null in *.

Lemma with_ideas_same (db : database) (t : table idea) :
  ideas db = Some t -> with_ideas db (rows t) (nextval t) = db.
Proof.
  destruct db as [tu ti tc tf], t as [l n]; unfold with_ideas; simpl.
  intros ->; reflexivity.
Qed.

Lemma with_comments_same (db : database) (t : table comment) :
  comments db = Some t -> with_comments db (rows t) (nextval t) = db.
Proof.
  destruct db as [tu ti tc tf], t as [l n]; unfold with_comments; simpl.
  intros ->; reflexivity.
Qed.

Lemma or_default_defined (v : jsval) (s : string) :
  is_defined (or_default v (JStr s)) = true.
Proof. destruct v; reflexivity. Qed.

(** The three accumulators after the three [if]s: every column is there. *)
Lemma build_patch_eq (b : object) :
  build_patch b =
  mkPatch [(ShortDescription, 1); (Description, 2); (Status, 3)]
    [or_default (prop b "short_description") (JStr "");
     or_default (prop b "description") (JStr "");
     or_default (prop b "status") (JStr "")]
    4.
Proof.
  unfold build_patch, push_if_defined.
  repeat (rewrite or_default_defined; simpl).
  reflexivity.
Qed.

(** The row an update leaves: the three mutable columns take the bound
    parameters, the others stay. *)
Lemma assign_build_patch (b : object) (id : string) (i : idea) :
  assign (fields (build_patch b)) (values (build_patch b) ++ [JStr id]) i =
  mkIdea (i_id i) (i_title i)
    (pg_text (or_default (prop b "description") (JStr "")))
    (pg_text (or_default (prop b "short_description") (JStr "")))
    (i_area i)
    (pg_text (or_default (prop b "status") (JStr "")))
    (i_user_id i) (i_created_at i).
Proof. rewrite build_patch_eq; reflexivity. Qed.

Lemma where_parameter (b : object) (id : string) :
  param (values (build_patch b) ++ [JStr id]) (idx (build_patch b)) = JStr id.
Proof. rewrite build_patch_eq; reflexivity. Qed.

Lemma map_no_hit {A : Type} (hit : A -> bool) (f : A -> A) (l : list A) :
  (forall x, In x l -> hit x = false) ->
  map (fun x => if hit x then f x else x) l = l /\ filter hit l = [].
Proof.
  induction l as [|a l IH]; intros H; simpl; [easy|].
  rewrite (H a (or_introl eq_refl)).
  destruct IH as [-> ->]; [|easy].
  intros x Hx; apply H; right; exact Hx.
Qed.

Lemma hd_filter_find {A : Type} (p : A -> bool) (l : list A) :
  hd_error (filter p l) = find p l.
Proof.
  induction l as [|a l IH]; simpl; [reflexivity|].
  destruct (p a); simpl; auto.
Qed.

(** The parameters bound to the SET list are the three values. *)
Lemma bound_columns (b : object) (id : string) :
  binding (map (fun f => param (values (build_patch b) ++ [JStr id]) (snd f))
             (fields (build_patch b))) =
  if forallb accepted (values (build_patch b)) then ret tt
  else throw (DbError InvalidByteSequence).
Proof. rewrite build_patch_eq; reflexivity. Qed.

Lemma patch_accepted_values (b : object) :
  forallb accepted (values (build_patch b)) = patch_accepted b.
Proof. rewrite build_patch_eq; reflexivity. Qed.

(** What the update handler does once the table is known, the id
    parameter reads as the integer [k] and the three values are taken. *)
Lemma update_idea_handler_eq (L : libs) (req : request) (db : database)
    (t : table idea) (k : Z) :
  ideas db = Some t ->
  int4in L (params_id req) = Some k ->
  forallb accepted (values (build_patch (req_body req))) = true ->
  let set := assign (fields (build_patch (req_body req)))
               (values (build_patch (req_body req)) ++ [JStr (params_id req)]) in
  update_idea_handler L req db =
  (Ok (mkResponse 200 (IdeaRow (option_map set
                                  (find (fun i => i_id i =? k) (rows t))))),
   with_ideas db (map (fun i => if i_id i =? k then set i else i) (rows t))
     (nextval t)).
Proof.
  intros Ht Hk Hacc set.
  unfold update_idea_handler, update_ideas.
  rewrite where_parameter, bound_columns, Hacc.
  rewrite build_patch_eq at 1; cbn [fields List.length Z.of_nat Z.eqb].
  unfold pg_int; cbn [pg_text]; rewrite Hk.
  unfold_monad; rewrite Ht; cbn [int_eq put_ideas nextval rows].
  unfold with_ideas; f_equal.
  rewrite <- hd_filter_find.
  destruct (filter (fun i => i_id i =? k) (rows t)); reflexivity.
Qed.

(** [authenticateToken] either attaches a user and runs the handler on the
    same database, or answers 401 itself. *)
Lemma authenticateToken_cases (L : libs) (req : request) (db : database) :
  (exists u, authenticated L req db u) \/
  (exists m, forall next,
      authenticateToken L req next db = (Ok (mkResponse 401 (Message m)), db)).
Proof.
  unfold authenticated, authenticateToken.
  destruct (authorization req) as [auth|]; [|right; eexists; reflexivity].
  destruct (prefix "Bearer " auth); cbn [negb];
    [|right; eexists; reflexivity].
  unfold select_user_by_id; unfold_monad.
  destruct (jwt_verify L _ (now req)) as [id|e];
    [|right; eexists; reflexivity].
  destruct (users db) as [t|]; [|right; eexists; reflexivity].
  destruct (map auth_columns (filter (fun u => u_id u =? id) (rows t)))
    as [|u l]; [right; eexists; reflexivity|].
  left; exists u; reflexivity.
Qed.

(** The update handler always answers, with 200 or 500. *)
Lemma update_idea_handler_answers (L : libs) (req : request) (db : database) :
  exists r db',
    update_idea_handler L req db = (Ok r, db') /\
    (status r = 200 \/ status r = 500).
Proof.
  destruct (ideas db) as [t|] eqn:Ht.
  - destruct (forallb accepted (values (build_patch (req_body req))))
      eqn:Hacc.
    + destruct (int4in L (params_id req)) as [k|] eqn:Hk.
      * rewrite (update_idea_handler_eq L req db t k Ht Hk Hacc).
        do 2 eexists; split; [reflexivity|left; reflexivity].
      * unfold update_idea_handler, update_ideas.
        rewrite where_parameter, bound_columns, Hacc, build_patch_eq.
        unfold pg_int; cbn [pg_text]; rewrite Hk.
        simpl (Z.of_nat _ =? 0).
        unfold_monad; rewrite Ht.
        do 2 eexists; split; [reflexivity|right; reflexivity].
    + unfold update_idea_handler, update_ideas.
      rewrite bound_columns, Hacc, build_patch_eq.
      simpl (Z.of_nat _ =? 0).
      unfold_monad; rewrite Ht.
      do 2 eexists; split; [reflexivity|right; reflexivity].
  - unfold update_idea_handler, update_ideas.
    rewrite build_patch_eq.
    simpl (Z.of_nat _ =? 0).
    unfold_monad; rewrite Ht.
    do 2 eexists; split; [reflexivity|right; reflexivity].
Qed.

(** C9.  In the idea-update handler the three fields are defaulted to the
    empty string when absent, so the field list of the UPDATE always holds
    all three columns and is never empty; the handler, and the route with
    its auth helper in front, never answer the 400 of the "no fields"
    branch. *)
Theorem update_no_fields_branch_dead (L : libs) (req : request)
    (db : database) :
  fields (build_patch (req_body req)) =
    [(ShortDescription, 1); (Description, 2); (Status, 3)] /\
  (exists r db',
      update_idea_handler L req db = (Ok r, db') /\ status r <> 400) /\
  (exists r db', update_idea L req db = (Ok r, db') /\ status r <> 400).
Proof.
  split; [rewrite build_patch_eq; reflexivity|].
  split.
  - destruct (update_idea_handler_answers L req db) as (r & db' & E & [S|S]).
    + exists r, db'; split; [exact E|rewrite S; discriminate].
    + exists r, db'; split; [exact E|rewrite S; discriminate].
  - unfold update_idea.
    destruct (authenticateToken_cases L req db) as [[u Hu]|[m Hm]].
    + rewrite Hu.
      destruct (update_idea_handler_answers L req db) as (r & db' & E & [S|S]).
      * exists r, db'; split; [exact E|rewrite S; discriminate].
      * exists r, db'; split; [exact E|rewrite S; discriminate].
    + rewrite Hm; do 2 eexists; split; [reflexivity|discriminate].
Qed.

(** C10, as the code has it.  An authenticated PATCH /api/ideas/:id whose
    id reads as an integer that is the key of no idea, and whose three
    values PostgreSQL takes, is answered 200 with [rows[0]], which is
    undefined; the database is left as it was. *)
Theorem update_of_missing_idea (L : libs) (req : request) (db : database)
    (u : auth_user) (t : table idea) (k : Z) :
  authenticated L req db u ->
  ideas db = Some t ->
  int4in L (params_id req) = Some k ->
  patch_accepted (req_body req) = true ->
  (forall i, In i (rows t) -> i_id i <> k) ->
  update_idea L req db = (Ok (mkResponse 200 (IdeaRow None)), db).
Proof.
  intros Hu Ht Hk Hacc Hnone.
  rewrite <- patch_accepted_values in Hacc.
  unfold update_idea; rewrite Hu.
  rewrite (update_idea_handler_eq L req db t k Ht Hk Hacc).
  assert (Hmiss : forall i, In i (rows t) -> (i_id i =? k) = false).
  { intros i Hi; apply Z.eqb_neq, Hnone, Hi. }
  destruct (map_no_hit (fun i => i_id i =? k)
              (assign (fields (build_patch (req_body req)))
                 (values (build_patch (req_body req))
                  ++ [JStr (params_id req)]))
              (rows t) Hmiss) as [Hmap Hfilter].
  rewrite Hmap, <- hd_filter_find, Hfilter.
  rewrite (with_ideas_same db t Ht); reflexivity.
Qed.

(** C1, as the code has it.  An authenticated PATCH /api/ideas/:id on an
    existing idea, with three values PostgreSQL takes, is answered 200 with
    the updated row, whose short_description, description and status are
    the bound parameters, and the table holds that row, whoever the
    requester [u] is: the owner column of the idea is never compared with
    [u]. *)
Theorem update_by_any_authenticated_user (L : libs) (req : request)
    (db : database) (u : auth_user) (t : table idea) (k : Z) (i : idea) :
  authenticated L req db u ->
  ideas db = Some t ->
  int4in L (params_id req) = Some k ->
  patch_accepted (req_body req) = true ->
  find (fun r => i_id r =? k) (rows t) = Some i ->
  let b := req_body req in
  let updated := fun r : idea =>
    mkIdea (i_id r) (i_title r)
      (pg_text (or_default (prop b "description") (JStr "")))
      (pg_text (or_default (prop b "short_description") (JStr "")))
      (i_area r)
      (pg_text (or_default (prop b "status") (JStr "")))
      (i_user_id r) (i_created_at r) in
  update_idea L req db =
  (Ok (mkResponse 200 (IdeaRow (Some (updated i)))),
   with_ideas db (map (fun r => if i_id r =? k then updated r else r) (rows t))
     (nextval t)).
Proof.
  intros Hu Ht Hk Hacc Hi b updated.
  rewrite <- patch_accepted_values in Hacc.
  unfold update_idea; rewrite Hu.
  rewrite (update_idea_handler_eq L req db t k Ht Hk Hacc), Hi.
  cbn [option_map]; rewrite assign_build_patch.
  rewrite (map_ext _ (fun r => if i_id r =? k then updated r else r));
    [reflexivity|].
  intros r; rewrite assign_build_patch; reflexivity.
Qed.

(** ** Login and registration *)

Lemma filter_none {A : Type} (p : A -> bool) (l : list A) :
  (forall x, In x l -> p x = false) -> filter p l = [].
Proof.
  induction l as [|a l IH]; intros H; simpl; [reflexivity|].
  rewrite (H a (or_introl eq_refl)).
  apply IH; intros x Hx; apply H; right; exact Hx.
Qed.

Lemma filter_first {A : Type} (p : A -> bool) (l : list A) (a : A) :
  find p l = Some a -> exists l', filter p l = a :: l'.
Proof.
  rewrite <- hd_filter_find.
  destruct (filter p l) as [|b l']; simpl; [discriminate|].
  intros [= ->]; exists l'; reflexivity.
Qed.


Lemma truthy_text (v : jsval) :
  truthy v = true -> exists s, pg_text v = Some s.
Proof.
  destruct v as [| |[|]|n|s|o]; simpl; try discriminate; intros _; eexists;
    reflexivity.
Qed.

(** Take two login attempts that both supply a password and an email
    PostgreSQL takes: one whose email is the email of no user, one whose
    email is a user's and whose password bcrypt compares and finds not to
    match the stored hash.  Both are answered 400 with the message
    "Invalid credentials.". *)
Theorem login_failures_indistinguishable (L : libs) (req1 req2 : request)
    (db1 db2 : database) (t1 t2 : table user) (u : user) :
  truthy (prop (req_body req1) "email") = true ->
  truthy (prop (req_body req1) "password") = true ->
  truthy (prop (req_body req2) "email") = true ->
  truthy (prop (req_body req2) "password") = true ->
  accepted (prop (req_body req1) "email") = true ->
  accepted (prop (req_body req2) "email") = true ->
  users db1 = Some t1 ->
  (forall x, In x (rows t1) ->
     text_eq (u_email x) (pg_text (prop (req_body req1) "email")) = false) ->
  users db2 = Some t2 ->
  find (fun x => text_eq (u_email x) (pg_text (prop (req_body req2) "email")))
    (rows t2) = Some u ->
  bcrypt_compare L (prop (req_body req2) "password") (u_password u) = Ok false ->
  fst (login L req1 db1) = fst (login L req2 db2) /\
  login L req1 db1 =
    (Ok (mkResponse 400 (Message "Invalid credentials.")), db1) /\
  login L req2 db2 =
    (Ok (mkResponse 400 (Message "Invalid credentials.")), db2).
Proof.
  intros He1 Hp1 He2 Hp2 Ha1 Ha2 Ht1 Hnone Ht2 Hfound Hcmp.
  assert (E1 : login L req1 db1 =
               (Ok (mkResponse 400 (Message "Invalid credentials.")), db1)).
  { unfold login, select_credentials_by_email, binding; cbn [forallb].
    rewrite He1, Hp1, Ha1; cbn [negb orb andb].
    unfold_monad; rewrite Ht1, (filter_none _ _ Hnone); reflexivity. }
  assert (E2 : login L req2 db2 =
               (Ok (mkResponse 400 (Message "Invalid credentials.")), db2)).
  { unfold login, select_credentials_by_email, binding; cbn [forallb].
    rewrite He2, Hp2, Ha2; cbn [negb orb andb].
    destruct (filter_first _ _ _ Hfound) as [l' Hl'].
    unfold_monad; rewrite Ht2, Hl'; cbn [map]; rewrite Hcmp; reflexivity. }
  rewrite E1, E2; repeat split.
Qed.

(** For one and the same request the answer of a failed login is the same
    whether its email is unknown or known with a password that does not
    match; here the request need not carry both fields. *)
Lemma login_same_request_no_leak (L : libs) (req : request)
    (db1 db2 : database) (t1 t2 : table user) (u : user) :
  users db1 = Some t1 ->
  (forall x, In x (rows t1) ->
     text_eq (u_email x) (pg_text (prop (req_body req) "email")) = false) ->
  users db2 = Some t2 ->
  find (fun x => text_eq (u_email x) (pg_text (prop (req_body req) "email")))
    (rows t2) = Some u ->
  bcrypt_compare L (prop (req_body req) "password") (u_password u) = Ok false ->
  fst (login L req db1) = fst (login L req db2).
Proof.
  intros Ht1 Hnone Ht2 Hfound Hcmp.
  unfold login, select_credentials_by_email.
  destruct (negb (truthy (prop (req_body req) "email"))
            || negb (truthy (prop (req_body req) "password"))).
  - reflexivity.
  - destruct (filter_first _ _ _ Hfound) as [l' Hl'].
    unfold binding; cbn [forallb].
    destruct (accepted (prop (req_body req) "email")); cbn [andb];
      unfold_monad; rewrite Ht1, Ht2; [|reflexivity].
    rewrite (filter_none _ _ Hnone), Hl'.
    cbn [map]; rewrite Hcmp; reflexivity.
Qed.

Lemma filter_or_nil {A : Type} (p q : A -> bool) (l : list A) :
  filter (fun x => p x || q x) l = [] ->
  existsb p l = false /\ existsb q l = false.
Proof.
  induction l as [|a l IH]; simpl; [easy|].
  destruct (p a), (q a); simpl; try discriminate.
  exact IH.
Qed.

(** The INSERT of the register handler goes through once the duplicate
    check found nothing. *)
Lemma insert_user_ok (db : database) (t : table user)
    (username email name : jsval) (un em nm h : string) :
  users db = Some t ->
  pg_text username = Some un ->
  pg_text email = Some em ->
  pg_text name = Some nm ->
  forallb accepted [username; email; JStr h; name] = true ->
  filter (fun x => text_eq (u_username x) (pg_text username)
                   || text_eq (u_email x) (pg_text email)) (rows t) = [] ->
  insert_user username email (JStr h) name db =
  (Ok tt,
   with_users db (rows t ++ [mkUser (nextval t) un em h nm]) (nextval t + 1)).
Proof.
  intros Ht Hun Hem Hnm Hacc Hfree.
  rewrite Hun, Hem in Hfree; cbn [text_eq] in Hfree.
  destruct (filter_or_nil _ _ _ Hfree) as [Hu He].
  unfold insert_user, binding; rewrite Hacc; unfold_monad.
  rewrite Ht, Hun, Hem, Hnm; cbn [put_users pg_text users rows nextval].
  unfold ret; cbv beta iota.
  rewrite Hu, He; reflexivity.
Qed.

(** ** Deleting a comment *)

Lemma select_comment_by_id_eq (L : libs) (id : string) (db : database)
    (t : table comment) (k : Z) :
  comments db = Some t ->
  int4in L id = Some k ->
  select_comment_by_id L id db =
  (Ok (filter (fun c => c_id c =? k) (rows t)), db).
Proof.
  intros Ht Hk; unfold select_comment_by_id, pg_int; cbn [pg_text].
  unfold_monad; rewrite Ht, Hk; reflexivity.
Qed.

Lemma delete_comment_by_id_eq (L : libs) (id : string) (k : Z) :
  int4in L id = Some k ->
  delete_comment_by_id L id = delete_from_comments (fun c => c_id c =? k).
Proof.
  intros Hk; unfold delete_comment_by_id, pg_int; cbn [pg_text].
  rewrite Hk; reflexivity.
Qed.

Lemma delete_comments_by_parent_eq (L : libs) (id : string) (k : Z) :
  int4in L id = Some k ->
  delete_comments_by_parent L id = delete_from_comments (reply_to k).
Proof.
  intros Hk; unfold delete_comments_by_parent, pg_int; cbn [pg_text].
  rewrite Hk; reflexivity.
Qed.

(** A DELETE goes through when no row it keeps refers to a row it
    deletes. *)
Lemma delete_from_comments_ok (gone : comment -> bool) (db : database)
    (t : table comment) :
  comments db = Some t ->
  (forall r d, In r (rows t) -> gone r = false ->
               In d (rows t) -> gone d = true ->
               c_parent_id r <> Some (c_id d)) ->
  delete_from_comments gone db =
  (Ok tt, with_comments db (filter (fun c => negb (gone c)) (rows t))
            (nextval t)).
Proof.
  intros Ht Hfree; unfold delete_from_comments; unfold_monad; rewrite Ht.
  destruct (existsb (refers_to (filter gone (rows t)))
              (filter (fun c => negb (gone c)) (rows t))) eqn:E;
    [|reflexivity].
  exfalso.
  apply existsb_exists in E; destruct E as (r & Hr & Href).
  apply filter_In in Hr; destruct Hr as [Hr Hkeep].
  apply negb_true_iff in Hkeep.
  unfold refers_to in Href.
  destruct (c_parent_id r) as [p|] eqn:Hp; [|discriminate].
  apply existsb_exists in Href; destruct Href as (d & Hd & Hid).
  apply filter_In in Hd; destruct Hd as [Hd Hgone].
  apply Z.eqb_eq in Hid; subst p.
  exact (Hfree r d Hr Hkeep Hd Hgone Hp).
Qed.

(** A DELETE is rejected, and leaves the table alone, when a row it keeps
    refers to a row it deletes. *)
Lemma delete_from_comments_blocked (gone : comment -> bool) (db : database)
    (t : table comment) (r d : comment) :
  comments db = Some t ->
  In r (rows t) -> gone r = false ->
  In d (rows t) -> gone d = true ->
  c_parent_id r = Some (c_id d) ->
  delete_from_comments gone db =
  (Throw (DbError (ForeignKeyViolation "comments_parent_id_fkey")), db).
Proof.
  intros Ht Hr Hkeep Hd Hgone Hp.
  unfold delete_from_comments; unfold_monad; rewrite Ht.
  replace (existsb (refers_to (filter gone (rows t)))
             (filter (fun c => negb (gone c)) (rows t))) with true;
    [reflexivity|].
  symmetry; apply existsb_exists; exists r; split.
  - apply filter_In; split; [exact Hr|rewrite Hkeep; reflexivity].
  - unfold refers_to; rewrite Hp.
    apply existsb_exists; exists d; split.
    + apply filter_In; split; assumption.
    + apply Z.eqb_refl.
Qed.

(** C4, as the code has it.  DELETE /api/comments/:id by an authenticated
    requester, for an id of the path that PostgreSQL reads as an integer:
    (1) 404 when no comment has the id; (2) 403 when the comment
    is not the requester's; otherwise (3) when its parent_id is null and no
    comment outside its replies refers to one of its replies, its replies
    are deleted, then the comment; (4) when its parent_id is a non-zero key
    and no other comment refers to it, only the comment is deleted.  In (3)
    and (4) the answer is 200 [{ success: true }]. *)
Theorem delete_comment_outcomes (L : libs) (req : request) (db : database)
    (u : auth_user) (t : table comment) (k : Z) :
  authenticated L req db u ->
  comments db = Some t ->
  int4in L (params_id req) = Some k ->
  ((forall c, In c (rows t) -> c_id c <> k) ->
   delete_comment L req db =
   (Ok (mkResponse 404 (Message "Comment not found.")), db)) /\
  (forall c,
     find (fun c => c_id c =? k) (rows t) = Some c ->
     (c_user_id c <> au_id u ->
      delete_comment L req db =
      (Ok (mkResponse 403 (Message "Not your comment.")), db)) /\
     (c_user_id c = au_id u ->
      c_parent_id c = None ->
      (forall r d, In r (rows t) -> In d (rows t) -> reply_to k d = true ->
                   c_parent_id r = Some (c_id d) -> reply_to k r = true) ->
      delete_comment L req db =
      (Ok (mkResponse 200 Success),
       with_comments db
         (filter (fun c => negb (c_id c =? k))
            (filter (fun c => negb (reply_to k c)) (rows t)))
         (nextval t))) /\
     (c_user_id c = au_id u ->
      forall p, c_parent_id c = Some p -> p <> 0 ->
      (forall r, In r (rows t) -> c_parent_id r = Some k -> c_id r = k) ->
      delete_comment L req db =
      (Ok (mkResponse 200 Success),
       with_comments db (filter (fun c => negb (c_id c =? k)) (rows t))
         (nextval t)))).
Proof.
  intros Hu Ht Hk.
  unfold delete_comment.
  assert (Hstep : forall c l',
    filter (fun c => c_id c =? k) (rows t) = c :: l' ->
    delete_comment_handler L u req db =
    try_catch
      (if negb (c_user_id c =? au_id u)
       then reply 403 (Message "Not your comment.")
       else
         _ <- (if truthy_id (c_parent_id c)
               then delete_from_comments (fun c => c_id c =? k)
               else
                 _ <- delete_from_comments (reply_to k) ;;
                 delete_from_comments (fun c => c_id c =? k)) ;;
         reply 200 Success)
      handleError db).
  { intros c l' Hfound.
    unfold delete_comment_handler, try_catch, bind at 1.
    rewrite (select_comment_by_id_eq L _ db t k Ht Hk), Hfound.
    rewrite (delete_comments_by_parent_eq L _ k Hk),
      (delete_comment_by_id_eq L _ k Hk); reflexivity. }
  split.
  - intros Hnone; rewrite Hu.
    unfold delete_comment_handler, try_catch, bind at 1.
    rewrite (select_comment_by_id_eq L _ db t k Ht Hk).
    rewrite filter_none; [reflexivity|].
    intros c Hc; apply Z.eqb_neq, Hnone, Hc.
  - intros c Hc.
    destruct (filter_first _ _ _ Hc) as [l' Hl'].
    rewrite !Hu, (Hstep c l' Hl'); clear Hstep.
    split; [|split].
    + intros Hother.
      apply Z.eqb_neq in Hother; rewrite Hother; reflexivity.
    + intros Hmine Hparent Hflat.
      apply Z.eqb_eq in Hmine; rewrite Hmine, Hparent; cbn [negb truthy_id].
      unfold try_catch, bind at 1 2.
      rewrite (delete_from_comments_ok (reply_to k) db t Ht).
      2:{ intros r d Hr Hkeep Hd Hgone Hp.
          rewrite (Hflat r d Hr Hd Hgone Hp) in Hkeep; discriminate. }
      rewrite (delete_from_comments_ok (fun c => c_id c =? k)
                 (with_comments db
                    (filter (fun c => negb (reply_to k c)) (rows t))
                    (nextval t))
                 (mkTable (filter (fun c => negb (reply_to k c)) (rows t))
                    (nextval t)) eq_refl).
      2:{ cbn [rows]; intros r d Hr Hkeep Hd Hgone Hp.
          apply filter_In in Hr; destruct Hr as [_ Hr].
          apply Z.eqb_eq in Hgone; rewrite Hgone in Hp.
          unfold reply_to in Hr; rewrite Hp, Z.eqb_refl in Hr; discriminate. }
      reflexivity.
    + intros Hmine p Hparent Hp Halone.
      apply Z.eqb_eq in Hmine; rewrite Hmine, Hparent; cbn [negb truthy_id].
      apply Z.eqb_neq in Hp; rewrite Hp; cbn [negb].
      unfold try_catch, bind at 1.
      rewrite (delete_from_comments_ok (fun c => c_id c =? k) db t Ht).
      2:{ intros r d Hr Hkeep Hd Hgone Hq.
          apply Z.eqb_eq in Hgone; rewrite Hgone in Hq.
          rewrite (Halone r Hr Hq), Z.eqb_refl in Hkeep; discriminate. }
      reflexivity.
Qed.

(** ** The same properties on the sample database *)

Import Sample.

(** Bob, who does not own idea 1, sets its status. *)
Lemma update_by_any_authenticated_user_witness :
  update_idea sample_libs (as_bob "1" [("status", JStr "Done")]) one_idea =
  (Ok (mkResponse 200
         (IdeaRow (Some (mkIdea 1 "Foo" (Some "") (Some "") None (Some "Done")
                           1 100)))),
   with_ideas one_idea
     [mkIdea 1 "Foo" (Some "") (Some "") None (Some "Done") 1 100] 2).
Proof.
  apply (update_by_any_authenticated_user sample_libs
           (as_bob "1" [("status", JStr "Done")]) one_idea
           (mkAuthUser 2 "bob" "bob@example.org") (mkTable [foo] 2) 1 foo).
  - intros next; reflexivity.
  - reflexivity.
  - reflexivity.
  - reflexivity.
  - reflexivity.
Defined.

(** Bob patches idea 9, which does not exist. *)
Lemma update_of_missing_idea_witness :
  update_idea sample_libs (as_bob "9" [("status", JStr "Done")]) one_idea =
  (Ok (mkResponse 200 (IdeaRow None)), one_idea).
Proof.
  apply (update_of_missing_idea sample_libs
           (as_bob "9" [("status", JStr "Done")]) one_idea
           (mkAuthUser 2 "bob" "bob@example.org") (mkTable [foo] 2) 9).
  - intros next; reflexivity.
  - reflexivity.
  - reflexivity.
  - reflexivity.
  - intros i [<-|[]]; discriminate.
Defined.

(** carol@example.org is nobody's email; alice's password is not "guess". *)
Lemma login_failures_indistinguishable_witness :
  fst (login sample_libs
         (anonymous [("email", JStr "carol@example.org");
                     ("password", JStr "guess")]) one_idea) =
  fst (login sample_libs
         (anonymous [("email", JStr "alice@example.org");
                     ("password", JStr "guess")]) one_idea).
Proof.
  apply (login_failures_indistinguishable sample_libs
           (anonymous [("email", JStr "carol@example.org");
                       ("password", JStr "guess")])
           (anonymous [("email", JStr "alice@example.org");
                       ("password", JStr "guess")])
           one_idea one_idea two_users two_users alice).
  - reflexivity.
  - reflexivity.
  - reflexivity.
  - reflexivity.
  - reflexivity.
  - reflexivity.
  - reflexivity.
  - intros x [<-|[<-|[]]]; reflexivity.
  - reflexivity.
  - reflexivity.
  - reflexivity.
Defined.

(** On the two-level thread: an unknown key, somebody else's comment, the
    top-level comment with its reply, the reply alone. *)
Lemma delete_comment_outcomes_witness :
  delete_comment sample_libs (as_bob "7" []) flat_thread =
  (Ok (mkResponse 404 (Message "Comment not found.")), flat_thread) /\
  delete_comment sample_libs (as_bob "1" []) flat_thread =
  (Ok (mkResponse 403 (Message "Not your comment.")), flat_thread) /\
  delete_comment sample_libs (as_alice "1" []) flat_thread =
  (Ok (mkResponse 200 Success), with_comments flat_thread [] 3) /\
  delete_comment sample_libs (as_bob "2" []) flat_thread =
  (Ok (mkResponse 200 Success), with_comments flat_thread [top] 3).
Proof.
  pose (thread := mkTable [top; reply_to_top] 3).
  pose (a := mkAuthUser 1 "alice" "alice@example.org").
  pose (b := mkAuthUser 2 "bob" "bob@example.org").
  split; [|split; [|split]].
  - apply (proj1 (delete_comment_outcomes sample_libs (as_bob "7" [])
                    flat_thread b thread 7
                    (fun next => eq_refl) eq_refl eq_refl)).
    intros c [<-|[<-|[]]]; discriminate.
  - apply (proj1 (proj2 (delete_comment_outcomes sample_libs (as_bob "1" [])
                           flat_thread b thread 1
                           (fun next => eq_refl) eq_refl eq_refl)
                    top eq_refl)).
    discriminate.
  - apply (proj1 (proj2 (proj2 (delete_comment_outcomes sample_libs
                                  (as_alice "1" []) flat_thread a thread 1
                                  (fun next => eq_refl) eq_refl eq_refl)
                           top eq_refl))).
    + reflexivity.
    + reflexivity.
    + intros r d [<-|[<-|[]]] [<-|[<-|[]]] Hd Hr;
        solve [discriminate Hd | discriminate Hr | reflexivity].
  - apply (proj2 (proj2 (proj2 (delete_comment_outcomes sample_libs
                                  (as_bob "2" []) flat_thread b thread 2
                                  (fun next => eq_refl) eq_refl eq_refl)
                           reply_to_top eq_refl)) eq_refl 1 eq_refl).
    + discriminate.
    + intros r [<-|[<-|[]]] Hr; solve [discriminate Hr | reflexivity].
Defined.

(** The claim of C4 fails on the three-level thread: bob's reply (key 2,
    parent 1) is his own and has a parent, yet deleting it removes nothing,
    because alice's reply to it still refers to it; the answer is 500. *)
Lemma delete_reply_having_replies :
  let req := as_bob "2" [] in
  let bob_user := mkAuthUser 2 "bob" "bob@example.org" in
  authenticated sample_libs req deep_thread bob_user /\
  find (fun c => c_id c =? 2) [top; reply_to_top; reply_to_reply] =
    Some reply_to_top /\
  c_user_id reply_to_top = au_id bob_user /\
  c_parent_id reply_to_top = Some 1 /\
  delete_comment sample_libs req deep_thread =
    (Ok (mkResponse 500 (Message "Server error.")), deep_thread) /\
  delete_comment sample_libs req deep_thread <>
    (Ok (mkResponse 200 Success),
     with_comments deep_thread [top; reply_to_reply] 4).
Proof.
  cbv zeta.
  split; [intros next; reflexivity|].
  do 4 (split; [reflexivity|]).
  vm_compute; discriminate.
Qed.

(** ** Where the code departs from its description *)

(** A handler whose body sits in [try { } catch (err) { handleError }]
    always answers. *)
Lemma try_catch_answers (m : M response) (db : database) :
  exists r db', try_catch m handleError db = (Ok r, db').
Proof.
  unfold try_catch; destruct (m db) as [[r|e] db'].
  - exists r, db'; reflexivity.
  - eexists; eexists; reflexivity.
Qed.

(** The create handler has no such [try]: with no [ideas] relation the
    INSERT is rejected and so is the handler. *)
Lemma create_idea_rejects (L : libs) (req : request) (db : database)
    (u : auth_user) :
  authenticated L req db u ->
  truthy (prop (req_body req) "title") = true ->
  ideas db = None ->
  create_idea L req db = (Throw (DbError (UndefinedTable Ideas)), db).
Proof.
  intros Hu Htitle Hnone.
  unfold create_idea; rewrite Hu.
  unfold create_idea_handler, insert_idea; rewrite Htitle; cbn [negb].
  unfold_monad; rewrite Hnone; reflexivity.
Qed.

(** C6, at POST /api/ideas.  Alice posts an idea while the [ideas] relation
    does not exist: the handler maps the failure to no status at all, its
    promise is rejected with the database error. *)
Theorem create_idea_failure_escapes :
  create_idea sample_libs (as_alice "" [("title", JStr "Foo")]) users_only =
  (Throw (DbError (UndefinedTable Ideas)), users_only).
Proof.
  apply (create_idea_rejects sample_libs _ users_only
           (mkAuthUser 1 "alice" "alice@example.org")).
  - intros next; reflexivity.
  - reflexivity.
  - reflexivity.
Qed.

(** The row POST /api/ideas inserts when the body has no [status]: the
    column is NULL. *)
Lemma create_idea_status_omitted (u : auth_user) (req : request)
    (db : database) (it : table idea) (ut : table user) (title : string) :
  prop (req_body req) "status" = JUndefined ->
  truthy (prop (req_body req) "title") = true ->
  pg_text (prop (req_body req) "title") = Some title ->
  idea_accepted (req_body req) = true ->
  ideas db = Some it ->
  users db = Some ut ->
  existsb (fun x => u_id x =? au_id u) (rows ut) = true ->
  create_idea_handler u req db =
  (Ok (mkResponse 201 Success),
   with_ideas db
     (rows it ++
      [mkIdea (nextval it) title
         (pg_text (prop (req_body req) "description"))
         (pg_text (prop (req_body req) "short_description"))
         (pg_text (prop (req_body req) "area"))
         None (au_id u) (now req)])
     (nextval it + 1)).
Proof.
  intros Hstatus Htruthy Htitle Hacc Hit Hut Huser.
  unfold create_idea_handler, insert_idea, binding.
  unfold idea_accepted in Hacc; rewrite Hacc.
  rewrite Htruthy, Hstatus, Htitle; cbn [negb].
  unfold_monad; rewrite Hit; cbn [put_ideas users]; rewrite Hut.
  unfold ret; cbn [users rows]; rewrite Huser.
  unfold with_ideas; rewrite Hut; reflexivity.
Qed.

(** C3, at its failing input.  Alice creates an idea with title "Foo" and
    no status and fetches it: the idea comes back with her id, name and
    username, and with status null, not "New". *)
Theorem created_idea_status_is_null :
  let created :=
    create_idea sample_libs (as_alice "" [("title", JStr "Foo")]) no_ideas in
  fst created = Ok (mkResponse 201 Success) /\
  fst (get_one_idea sample_libs (as_alice "1" []) (snd created)) =
  Ok (mkResponse 200
        (IdeaDetail
           (mkIdeaDetail (mkIdea 1 "Foo" None None None None 1 1000)
              "Alice" "alice"))).
Proof. split; reflexivity. Qed.

(** DELETE /api/ideas/:id by somebody who does not own the idea: 403,
    nothing deleted. *)
Lemma delete_idea_not_owner (L : libs) (req : request) (db : database)
    (u : auth_user) (it : table idea) (k : Z) (i : idea) :
  authenticated L req db u ->
  ideas db = Some it ->
  int4in L (params_id req) = Some k ->
  find (fun r => i_id r =? k) (rows it) = Some i ->
  i_user_id i <> au_id u ->
  delete_idea L req db = (Ok (mkResponse 403 (Message "Not your idea.")), db).
Proof.
  intros Hu Hit Hk Hi Hother.
  unfold delete_idea; rewrite Hu.
  unfold delete_idea_handler, select_idea_owner, pg_int; cbn [pg_text].
  rewrite Hk; unfold_monad; rewrite Hit; cbn [int_eq].
  destruct (filter_first _ _ _ Hi) as [l' ->]; cbn [map].
  apply Z.eqb_neq in Hother; rewrite Hother; reflexivity.
Qed.

(** DELETE /api/ideas/:id by the owner of an idea somebody commented: the
    foreign key of [comments] rejects the DELETE, the answer is 500 and the
    idea stays. *)
Lemma delete_idea_blocked (L : libs) (req : request) (db : database)
    (u : auth_user) (it : table idea) (ct : table comment) (k : Z) (i : idea)
    (c : comment) :
  authenticated L req db u ->
  ideas db = Some it ->
  comments db = Some ct ->
  int4in L (params_id req) = Some k ->
  find (fun r => i_id r =? k) (rows it) = Some i ->
  i_user_id i = au_id u ->
  In c (rows ct) ->
  c_idea_id c = k ->
  delete_idea L req db = (Ok (mkResponse 500 (Message "Server error.")), db).
Proof.
  intros Hu Hit Hct Hk Hi Hmine Hc Hon.
  unfold delete_idea; rewrite Hu.
  unfold delete_idea_handler, select_idea_owner, delete_from_ideas, pg_int.
  cbn [pg_text]; rewrite Hk; unfold_monad; rewrite Hit; cbn [int_eq].
  destruct (filter_first _ _ _ Hi) as [l' Hl']; rewrite Hl'; cbn [map].
  apply Z.eqb_eq in Hmine; rewrite Hmine; cbn [negb].
  rewrite Hit; cbv beta iota; rewrite Hct.
  replace (existsb _ (rows ct)) with true; [reflexivity|].
  symmetry; apply existsb_exists; exists c; split; [exact Hc|].
  apply existsb_exists; exists i; split.
  - apply find_some in Hi; tauto.
  - apply find_some in Hi; destruct Hi as [_ Hid].
    rewrite Hid; apply Z.eqb_eq in Hid; rewrite Hon, Hid.
    apply Z.eqb_refl.
Qed.

(** DELETE /api/ideas/:id by the owner of an idea nobody commented: 200,
    and no row of that key is left for any listing to return. *)
Lemma delete_idea_by_owner (L : libs) (req : request) (db : database)
    (u : auth_user) (it : table idea) (k : Z) (i : idea) :
  authenticated L req db u ->
  ideas db = Some it ->
  int4in L (params_id req) = Some k ->
  find (fun r => i_id r =? k) (rows it) = Some i ->
  i_user_id i = au_id u ->
  (forall ct c, comments db = Some ct -> In c (rows ct) -> c_idea_id c <> k) ->
  delete_idea L req db =
  (Ok (mkResponse 200 Success),
   with_ideas db (filter (fun r => negb (i_id r =? k)) (rows it)) (nextval it))
  /\ forall r, In r (filter (fun r => negb (i_id r =? k)) (rows it)) ->
               i_id r <> k.
Proof.
  intros Hu Hit Hk Hi Hmine Hfree; split.
  - unfold delete_idea; rewrite Hu.
    unfold delete_idea_handler, select_idea_owner, delete_from_ideas, pg_int.
    cbn [pg_text]; rewrite Hk; unfold_monad; rewrite Hit; cbn [int_eq].
    destruct (filter_first _ _ _ Hi) as [l' Hl']; rewrite Hl'; cbn [map].
    apply Z.eqb_eq in Hmine; rewrite Hmine; cbn [negb].
    rewrite Hit; cbv beta iota.
    destruct (comments db) as [ct|] eqn:Hct; [|reflexivity].
    replace (existsb _ (rows ct)) with false; [reflexivity|].
    symmetry; apply not_true_is_false; intros Hex.
    apply existsb_exists in Hex; destruct Hex as (c & Hc & Hex).
    apply existsb_exists in Hex; destruct Hex as (r & _ & Hr).
    apply andb_true_iff in Hr; destruct Hr as [Hrk Hcr].
    apply Z.eqb_eq in Hrk, Hcr.
    apply (Hfree ct c eq_refl Hc); congruence.
  - intros r Hr; apply filter_In in Hr; destruct Hr as [_ Hr].
    apply negb_true_iff, Z.eqb_neq in Hr; exact Hr.
Qed.

(** C5, at its failing input.  Alice deletes her own idea 1, on which there
    is a comment: the answer is 500, the database is as before, and the
    idea is still in all three listings. *)
Theorem owner_delete_of_commented_idea :
  let req := as_alice "1" [] in
  delete_idea sample_libs req commented_idea =
    (Ok (mkResponse 500 (Message "Server error.")), commented_idea) /\
  fst (list_all_ideas sample_libs req commented_idea) =
    Ok (mkResponse 200 (IdeaList [mkIdeaWithOwner foo "alice"])) /\
  fst (list_my_ideas sample_libs req commented_idea) =
    Ok (mkResponse 200 (MyIdeaList [my_columns foo])) /\
  fst (get_one_idea sample_libs req commented_idea) =
    Ok (mkResponse 200 (IdeaDetail (mkIdeaDetail foo "Alice" "alice"))).
Proof.
  cbv zeta; split; [|repeat split].
  apply (delete_idea_blocked sample_libs _ commented_idea
           (mkAuthUser 1 "alice" "alice@example.org")
           (mkTable [foo] 2) (mkTable [top] 2) 1 foo top);
    try reflexivity.
  - intros next; reflexivity.
  - left; reflexivity.
Qed.

(** Each create-table handler, had it been registered, answers 200 with
    its "created" message or 500 with its "error" message. *)
Lemma create_table_answers (r : relname) (created failed : string)
    (db : database) :
  exists db',
    create_table r created failed db =
      (Ok (mkResponse 200 (Message created)), db') \/
    create_table r created failed db =
      (Ok (mkResponse 500 (Message failed)), db').
Proof.
  unfold create_table; unfold_monad.
  destruct (drop_table_if_exists r db) as [[[]|e] db1];
    [|exists db1; right; reflexivity].
  destruct (create_table_if_not_exists r db1) as [[[]|e] db2];
    [exists db2; left|exists db2; right]; reflexivity.
Qed.

(** On a database with no table, the handler for [users] makes an empty
    table whose sequence starts at 1. *)
Lemma create_table_users_from_nothing (req : request) :
  create_table_users req (mkDb None None None None) =
  (Ok (mkResponse 200 (Message "Users table created.")),
   mkDb (Some fresh_table) None None None).
Proof. reflexivity. Qed.

(** C2.  Loading the module stops at [api.get("/api/create_table_users",
    ...)]: [api] was never declared.  The application then has the routes
    registered on [app] before that line, none of the four create-table
    routes, no fallback, and it never listens. *)
Theorem create_table_routes_never_registered :
  let loaded := load server_js empty_application in
  fst loaded = Throw (ReferenceError "api") /\
  registered (snd loaded) GET "/api/create_table_users" = None /\
  registered (snd loaded) GET "/api/create_table_ideas" = None /\
  registered (snd loaded) GET "/api/create_table_comments" = None /\
  registered (snd loaded) GET "/api/create_table_feedback" = None /\
  registered (snd loaded) GET "/api/ping" = Some Ping /\
  layers (snd loaded) = [Cors; JsonBody; RequestLog] /\
  listening (snd loaded) = false.
Proof. cbv zeta; repeat split. Qed.

(** * Further properties of the routes *)

(** ** The auth helper *)

Lemma authenticated_intro (L : libs) (req : request) (db : database)
    (a : string) (id : Z) (t : table user) (x : user) :
  authorization req = Some a ->
  prefix "Bearer " a = true ->
  jwt_verify L (nth 1 (split_on " "%char a) "") (now req) = Ok id ->
  users db = Some t ->
  find (fun y => u_id y =? id) (rows t) = Some x ->
  authenticated L req db (auth_columns x).
Proof.
  intros Ha Hp Hv Ht Hx next.
  unfold authenticateToken; rewrite Ha, Hp; cbn [negb].
  unfold select_user_by_id; unfold_monad; rewrite Hv, Ht.
  destruct (filter_first _ _ _ Hx) as [l' ->]; reflexivity.
Qed.

(** The two ways [authenticateToken] ends, with what decides between
    them. *)
Lemma authenticateToken_result (L : libs) (req : request) (db : database) :
  (exists a id t x,
      authorization req = Some a /\
      prefix "Bearer " a = true /\
      jwt_verify L (nth 1 (split_on " "%char a) "") (now req) = Ok id /\
      users db = Some t /\
      find (fun y => u_id y =? id) (rows t) = Some x /\
      authenticated L req db (auth_columns x)) \/
  (exists m,
      (forall next,
          authenticateToken L req next db
          = (Ok (mkResponse 401 (Message m)), db)) /\
      (m = "Missing or invalid token." \/ m = "Invalid or expired token.")).
Proof.
  unfold authenticated, authenticateToken.
  destruct (authorization req) as [a|] eqn:Ha;
    [|right; eexists; split; [reflexivity|left; reflexivity]].
  destruct (prefix "Bearer " a) eqn:Hp; cbn [negb];
    [|right; eexists; split; [reflexivity|left; reflexivity]].
  unfold select_user_by_id; unfold_monad.
  destruct (jwt_verify L _ (now req)) as [id|e] eqn:Hv;
    [|right; eexists; split; [reflexivity|right; reflexivity]].
  destruct (users db) as [t|] eqn:Ht;
    [|right; eexists; split; [reflexivity|right; reflexivity]].
  destruct (find (fun y => u_id y =? id) (rows t)) as [x|] eqn:Hx.
  - left; exists a, id, t, x; repeat split; try assumption.
    intros next.
    destruct (filter_first _ _ _ Hx) as [l' ->]; reflexivity.
  - right; rewrite <- hd_filter_find in Hx.
    destruct (filter (fun y => u_id y =? id) (rows t)); [|discriminate Hx].
    eexists; split; [reflexivity|right; reflexivity].
Qed.

(** X1.  A request gets past [authenticateToken] exactly when its header
    starts with "Bearer ", its token verifies and the id of the payload is
    the key of a user; the handler then sees the id, username and email of
    the first such row.  A request that does not get past it is answered
    401 with one of the helper's two messages, on an unchanged database,
    whatever handler was to follow. *)
Theorem authenticated_exactly_when (L : libs) (req : request) (db : database) :
  (forall u,
     authenticated L req db u <->
     exists a id t x,
       authorization req = Some a /\
       prefix "Bearer " a = true /\
       jwt_verify L (nth 1 (split_on " "%char a) "") (now req) = Ok id /\
       users db = Some t /\
       find (fun y => u_id y =? id) (rows t) = Some x /\
       u = auth_columns x) /\
  ((forall u, ~ authenticated L req db u) ->
   exists m,
     (m = "Missing or invalid token." \/ m = "Invalid or expired token.") /\
     forall next,
       authenticateToken L req next db
       = (Ok (mkResponse 401 (Message m)), db)).
Proof.
  split.
  - intros u; split.
    + intros Hu.
      destruct (authenticateToken_result L req db)
        as [(a & id & t & x & Ha & Hp & Hv & Ht & Hx & Hok)|(m & Hm & _)].
      * exists a, id, t, x; repeat split; try assumption.
        pose proof (Hu (fun v => reply 200 (CurrentUser v))) as E.
        rewrite (Hok (fun v => reply 200 (CurrentUser v))) in E.
        unfold reply, ret in E; congruence.
      * pose proof (Hu (fun _ => reply 200 Success)) as E.
        rewrite Hm in E; unfold reply, ret in E; discriminate E.
    + intros (a & id & t & x & Ha & Hp & Hv & Ht & Hx & ->).
      exact (authenticated_intro L req db a id t x Ha Hp Hv Ht Hx).
  - intros Hnone.
    destruct (authenticateToken_result L req db)
      as [(a & id & t & x & _ & _ & _ & _ & _ & Hok)|(m & Hm & Hmsg)].
    + destruct (Hnone _ Hok).
    + exists m; split; assumption.
Qed.

Lemma authenticated_exactly_when_witness :
  authenticated sample_libs (as_bob "1" []) one_idea
    (mkAuthUser 2 "bob" "bob@example.org") /\
  exists m,
    (m = "Missing or invalid token." \/ m = "Invalid or expired token.") /\
    forall next,
      authenticateToken sample_libs (anonymous []) next one_idea
      = (Ok (mkResponse 401 (Message m)), one_idea).
Proof.
  split.
  - apply (proj2 (proj1 (authenticated_exactly_when sample_libs
                           (as_bob "1" []) one_idea)
                    (mkAuthUser 2 "bob" "bob@example.org"))).
    exists "Bearer t2", 2, two_users, bob; repeat split.
  - apply (proj2 (authenticated_exactly_when sample_libs (anonymous [])
                    one_idea)).
    intros u Hu.
    pose proof (Hu (fun _ => reply 200 Success)) as E; discriminate E.
Defined.

Lemma split_on_word (c : ascii) (w rest : string) :
  occurs c w = false ->
  split_on c (w ++ String c rest) = w :: split_on c rest.
Proof.
  induction w as [|a w IH]; cbn [occurs append split_on].
  - intros _; rewrite Ascii.eqb_refl; reflexivity.
  - intros H; apply orb_false_iff in H; destruct H as [Ha Hw].
    rewrite Ha, (IH Hw); reflexivity.
Qed.

Lemma split_on_single (c : ascii) (w : string) :
  occurs c w = false -> split_on c w = [w].
Proof.
  induction w as [|a w IH]; cbn [occurs split_on]; [reflexivity|].
  intros H; apply orb_false_iff in H; destruct H as [Ha Hw].
  rewrite Ha, (IH Hw); reflexivity.
Qed.

(** X2.  The token is [auth.split(" ")[1]]: whatever follows a second
    space in the header is ignored, so "Bearer <token> <anything>" is
    treated exactly as "Bearer <token>". *)
Theorem token_is_second_word (L : libs) (req : request) (tok rest : string)
    (next : auth_user -> M response) (db : database) :
  occurs " "%char tok = false ->
  authenticateToken L
    (with_authorization req ("Bearer " ++ tok ++ " " ++ rest)) next db =
  authenticateToken L (with_authorization req ("Bearer " ++ tok)) next db.
Proof.
  intros Htok.
  unfold authenticateToken, with_authorization; cbn [authorization now].
  change (prefix "Bearer " ("Bearer " ++ tok ++ " " ++ rest))
    with (prefix "" (tok ++ " " ++ rest)).
  change (prefix "Bearer " ("Bearer " ++ tok)) with (prefix "" tok).
  assert (Hempty : forall s, prefix "" s = true) by (intros [|? ?]; reflexivity).
  rewrite !Hempty; cbn [negb].
  change (split_on " "%char ("Bearer " ++ tok ++ " " ++ rest))
    with ("Bearer" :: split_on " "%char (tok ++ " " ++ rest)).
  change (split_on " "%char ("Bearer " ++ tok))
    with ("Bearer" :: split_on " "%char tok).
  change (tok ++ " " ++ rest) with (tok ++ String " "%char rest).
  rewrite (split_on_word _ _ rest Htok), (split_on_single _ _ Htok).
  reflexivity.
Qed.

Lemma token_is_second_word_witness :
  authenticateToken sample_libs
    (with_authorization (anonymous []) ("Bearer " ++ "t1" ++ " " ++ "junk"))
    (fun u => reply 200 (CurrentUser u)) one_idea =
  authenticateToken sample_libs
    (with_authorization (anonymous []) ("Bearer " ++ "t1"))
    (fun u => reply 200 (CurrentUser u)) one_idea.
Proof.
  apply (token_is_second_word sample_libs (anonymous []) "t1" "junk").
  reflexivity.
Defined.

(** ** Login and registration, composed *)

Lemma bearer_token (tok : string) :
  occurs " "%char tok = false ->
  prefix "Bearer " ("Bearer " ++ tok) = true /\
  nth 1 (split_on " "%char ("Bearer " ++ tok)) "" = tok.
Proof.
  intros Htok; split.
  - change (prefix "Bearer " ("Bearer " ++ tok)) with (prefix "" tok).
    destruct tok; reflexivity.
  - change (split_on " "%char ("Bearer " ++ tok))
      with ("Bearer" :: split_on " "%char tok).
    rewrite (split_on_single _ _ Htok); reflexivity.
Qed.

Lemma login_ok (L : libs) (req : request) (db : database) (t : table user)
    (x : user) :
  truthy (prop (req_body req) "email") = true ->
  truthy (prop (req_body req) "password") = true ->
  accepted (prop (req_body req) "email") = true ->
  users db = Some t ->
  find (fun y => text_eq (u_email y) (pg_text (prop (req_body req) "email")))
    (rows t) = Some x ->
  bcrypt_compare L (prop (req_body req) "password") (u_password x) = Ok true ->
  login L req db =
  (Ok (mkResponse 200 (Token (jwt_sign L (u_id x) (now req)))), db).
Proof.
  intros He Hp Ha Ht Hx Hcmp.
  unfold login, select_credentials_by_email, binding; cbn [forallb].
  rewrite He, Hp, Ha; cbn [negb orb andb].
  destruct (filter_first _ _ _ Hx) as [l' Hl'].
  unfold_monad; rewrite Ht, Hl'; cbn [map]; rewrite Hcmp; reflexivity.
Qed.

(** X3.  A successful login, on an email PostgreSQL takes, answers a
    token signed for the id of the row found by email; presented to GET /api/me as "Bearer <token>" while it
    still verifies, it gives back that user's id, username and email.
    Neither request changes the database. *)
Theorem login_then_me (L : libs) (req req' : request) (db : database)
    (t : table user) (x : user) :
  truthy (prop (req_body req) "email") = true ->
  truthy (prop (req_body req) "password") = true ->
  accepted (prop (req_body req) "email") = true ->
  users db = Some t ->
  find (fun y => text_eq (u_email y) (pg_text (prop (req_body req) "email")))
    (rows t) = Some x ->
  bcrypt_compare L (prop (req_body req) "password") (u_password x) = Ok true ->
  find (fun y => u_id y =? u_id x) (rows t) = Some x ->
  occurs " "%char (jwt_sign L (u_id x) (now req)) = false ->
  authorization req' = Some ("Bearer " ++ jwt_sign L (u_id x) (now req)) ->
  jwt_verify L (jwt_sign L (u_id x) (now req)) (now req') = Ok (u_id x) ->
  login L req db =
    (Ok (mkResponse 200 (Token (jwt_sign L (u_id x) (now req)))), db) /\
  me L req' db = (Ok (mkResponse 200 (CurrentUser (auth_columns x))), db).
Proof.
  intros He Hp Ha Ht Hx Hcmp Hkey Htok Hauth Hverify.
  split; [exact (login_ok L req db t x He Hp Ha Ht Hx Hcmp)|].
  destruct (bearer_token _ Htok) as [Hprefix Hword].
  unfold me.
  rewrite (authenticated_intro L req' db _ (u_id x) t x Hauth Hprefix);
    [reflexivity| |exact Ht|exact Hkey].
  rewrite Hword; exact Hverify.
Qed.

Lemma login_then_me_witness :
  login sample_libs
    (anonymous [("email", JStr "alice@example.org");
                ("password", JStr "wonderland")]) one_idea =
    (Ok (mkResponse 200 (Token "t1")), one_idea) /\
  me sample_libs (as_alice "" []) one_idea =
    (Ok (mkResponse 200 (CurrentUser (mkAuthUser 1 "alice" "alice@example.org"))),
     one_idea).
Proof.
  apply (login_then_me sample_libs
           (anonymous [("email", JStr "alice@example.org");
                       ("password", JStr "wonderland")])
           (as_alice "" []) one_idea two_users alice); reflexivity.
Defined.


(** The register handler on a request with all four fields, against a
    table where neither the username nor the email is in use. *)
Lemma register_ok (L : libs) (req : request) (db : database) (t : table user)
    (un em nm h : string) :
  truthy (prop (req_body req) "username") = true ->
  truthy (prop (req_body req) "email") = true ->
  truthy (prop (req_body req) "password") = true ->
  truthy (prop (req_body req) "name") = true ->
  pg_text (prop (req_body req) "username") = Some un ->
  pg_text (prop (req_body req) "email") = Some em ->
  pg_text (prop (req_body req) "name") = Some nm ->
  accepted (prop (req_body req) "username") = true ->
  accepted (prop (req_body req) "email") = true ->
  accepted (prop (req_body req) "name") = true ->
  has_nul h = false ->
  users db = Some t ->
  filter (fun x => text_eq (u_username x)
                     (pg_text (prop (req_body req) "username"))
                   || text_eq (u_email x)
                        (pg_text (prop (req_body req) "email")))
    (rows t) = [] ->
  bcrypt_hash L (prop (req_body req) "password") 10 = Ok h ->
  register L req db =
  (Ok (mkResponse 201 Success),
   with_users db (rows t ++ [mkUser (nextval t) un em h nm]) (nextval t + 1)).
Proof.
  intros Hu He Hp Hn Hun Hem Hnm Hau Hae Han Hh0 Ht Hfree Hh.
  assert (Hacc : forallb accepted
                   [prop (req_body req) "username"; prop (req_body req) "email";
                    JStr h; prop (req_body req) "name"] = true).
  { cbn [forallb]; rewrite Hau, Hae, Han.
    unfold accepted; cbn [pg_text]; rewrite Hh0; reflexivity. }
  pose proof (insert_user_ok db t _ _ _ un em nm h Ht Hun Hem Hnm Hacc Hfree)
    as Hins.
  unfold register, select_ids_by_username_or_email, binding; cbn [forallb].
  rewrite Hu, He, Hp, Hn, Hau, Hae; cbn [negb orb andb].
  unfold_monad; rewrite Ht, Hfree.
  cbn [map List.length Z.of_nat Z.ltb Z.compare]; cbv beta iota.
  rewrite Hh, Hins; reflexivity.
Qed.



(** Whatever the register handler answers: either the answer is not 201
    and the database is as before, or it is 201 and one row was appended
    under the table's next sequence value, with a username and an email no
    row had and the hash bcrypt made. *)
Lemma register_result (L : libs) (req : request) (db : database) :
  exists r db',
    register L req db = (Ok r, db') /\
    ((status r <> 201 /\ db' = db) \/
     (r = mkResponse 201 Success /\
      exists t un em nm h,
        users db = Some t /\
        pg_text (prop (req_body req) "username") = Some un /\
        pg_text (prop (req_body req) "email") = Some em /\
        pg_text (prop (req_body req) "name") = Some nm /\
        bcrypt_hash L (prop (req_body req) "password") 10 = Ok h /\
        existsb (fun x => (u_username x =? un)%string) (rows t) = false /\
        existsb (fun x => (u_email x =? em)%string) (rows t) = false /\
        db' = with_users db (rows t ++ [mkUser (nextval t) un em h nm])
                (nextval t + 1))).
Proof.
  assert (Hfail : forall r,
            status r <> 201 ->
            register L req db = (Ok r, db) ->
            exists r db',
              register L req db = (Ok r, db') /\
              ((status r <> 201 /\ db' = db) \/
               (r = mkResponse 201 Success /\
                exists t un em nm h,
                  users db = Some t /\
                  pg_text (prop (req_body req) "username") = Some un /\
                  pg_text (prop (req_body req) "email") = Some em /\
                  pg_text (prop (req_body req) "name") = Some nm /\
                  bcrypt_hash L (prop (req_body req) "password") 10 = Ok h /\
                  existsb (fun x => (u_username x =? un)%string) (rows t)
                  = false /\
                  existsb (fun x => (u_email x =? em)%string) (rows t)
                  = false /\
                  db' = with_users db
                          (rows t ++ [mkUser (nextval t) un em h nm])
                          (nextval t + 1)))).
  { intros r Hr E; exists r, db; split; [exact E|left; split; easy]. }
  destruct (truthy (prop (req_body req) "username")) eqn:Hu;
    [|apply (Hfail (mkResponse 400 (Message "All fields required.")));
      [discriminate|unfold register; rewrite Hu; reflexivity]].
  destruct (truthy (prop (req_body req) "email")) eqn:He;
    [|apply (Hfail (mkResponse 400 (Message "All fields required.")));
      [discriminate|unfold register; rewrite Hu, He; reflexivity]].
  destruct (truthy (prop (req_body req) "password")) eqn:Hp;
    [|apply (Hfail (mkResponse 400 (Message "All fields required.")));
      [discriminate|unfold register; rewrite Hu, He, Hp; reflexivity]].
  destruct (truthy (prop (req_body req) "name")) eqn:Hn;
    [|apply (Hfail (mkResponse 400 (Message "All fields required.")));
      [discriminate|unfold register; rewrite Hu, He, Hp, Hn; reflexivity]].
  destruct (truthy_text _ Hu) as [un Hun].
  destruct (truthy_text _ He) as [em Hem].
  destruct (truthy_text _ Hn) as [nm Hnm].
  assert (Hstart : register L req db =
    try_catch
      (existsRows <- select_ids_by_username_or_email
                       (prop (req_body req) "username")
                       (prop (req_body req) "email") ;;
       if 0 <? Z.of_nat (List.length existsRows)
       then reply 400 (Message "Username or email taken.")
       else
         hash <- lift (bcrypt_hash L (prop (req_body req) "password") 10) ;;
         _ <- insert_user (prop (req_body req) "username")
                (prop (req_body req) "email") (JStr hash)
                (prop (req_body req) "name") ;;
         reply 201 Success)
      handleError db).
  { unfold register; rewrite Hu, He, Hp, Hn; reflexivity. }
  destruct (users db) as [t|] eqn:Ht.
  2:{ apply (Hfail (mkResponse 500 (Message "Server error.")));
        [discriminate|].
      rewrite Hstart; unfold select_ids_by_username_or_email.
      unfold_monad; rewrite Ht; reflexivity. }
  destruct (accepted (prop (req_body req) "username")) eqn:Hau.
  2:{ apply (Hfail (mkResponse 500 (Message "Server error.")));
        [discriminate|].
      rewrite Hstart; unfold select_ids_by_username_or_email, binding.
      cbn [forallb]; rewrite Hau; cbn [andb].
      unfold_monad; rewrite Ht; reflexivity. }
  destruct (accepted (prop (req_body req) "email")) eqn:Hae.
  2:{ apply (Hfail (mkResponse 500 (Message "Server error.")));
        [discriminate|].
      rewrite Hstart; unfold select_ids_by_username_or_email, binding.
      cbn [forallb]; rewrite Hau, Hae; cbn [andb].
      unfold_monad; rewrite Ht; reflexivity. }
  destruct (filter (fun x => text_eq (u_username x)
                              (pg_text (prop (req_body req) "username"))
                             || text_eq (u_email x)
                                  (pg_text (prop (req_body req) "email")))
              (rows t)) as [|y l'] eqn:Hfree.
  2:{ apply (Hfail (mkResponse 400 (Message "Username or email taken.")));
        [discriminate|].
      rewrite Hstart; unfold select_ids_by_username_or_email, binding.
      cbn [forallb]; rewrite Hau, Hae; cbn [andb].
      unfold_monad; rewrite Ht, Hfree; reflexivity. }
  destruct (bcrypt_hash L (prop (req_body req) "password") 10) as [h|e] eqn:Hh.
  2:{ apply (Hfail (mkResponse 500 (Message "Server error.")));
        [discriminate|].
      rewrite Hstart; unfold select_ids_by_username_or_email, binding.
      cbn [forallb]; rewrite Hau, Hae; cbn [andb].
      unfold_monad; rewrite Ht, Hfree; reflexivity. }
  destruct (accepted (prop (req_body req) "name") && negb (has_nul h))
    eqn:Hrest.
  - apply andb_true_iff in Hrest; destruct Hrest as [Han Hh0].
    apply negb_true_iff in Hh0.
    do 2 eexists; split.
    + apply (register_ok L req db t un em nm h); try assumption.
    + right; split; [reflexivity|].
      exists t, un, em, nm, h.
      pose proof Hfree as Hfree'.
      rewrite Hun, Hem in Hfree'; cbn [text_eq] in Hfree'.
      destruct (filter_or_nil _ _ _ Hfree') as [Hfu Hfe].
      repeat split; assumption.
  - apply (Hfail (mkResponse 500 (Message "Server error.")));
      [discriminate|].
    rewrite Hstart.
    unfold select_ids_by_username_or_email, insert_user, binding.
    cbn [forallb]; rewrite Hau, Hae; cbn [andb].
    unfold accepted at 1; cbn [pg_text].
    unfold_monad; rewrite Ht, Hfree.
    cbn [map List.length Z.of_nat Z.ltb Z.compare]; cbv beta iota.
    rewrite andb_true_r, andb_comm, Hrest, Ht; reflexivity.
Qed.




Lemma existsb_eqb_not_in {A : Type} (f : A -> string) (s : string)
    (l : list A) :
  existsb (fun x => (f x =? s)%string) l = false -> ~ In s (map f l).
Proof.
  induction l as [|a l IH]; cbn [existsb map In]; [tauto|].
  intros H; apply orb_false_iff in H; destruct H as [Ha Hl].
  apply String.eqb_neq in Ha; intros [E|E]; [exact (Ha E)|exact (IH Hl E)].
Qed.

Lemma NoDup_snoc {A : Type} (l : list A) (a : A) :
  NoDup l -> ~ In a l -> NoDup (l ++ [a]).
Proof.
  induction 1 as [|x l Hx Hl IH]; intros Ha; cbn [app].
  - constructor; [intros []|constructor].
  - constructor.
    + intros Hin; apply in_app_or in Hin; destruct Hin as [Hin|[E|[]]].
      * exact (Hx Hin).
      * apply Ha; left; symmetry; exact E.
    + apply IH; intros Hin; apply Ha; right; exact Hin.
Qed.

(** X5.  Registration keeps the keys of the users table: if ids,
    usernames and emails are pairwise distinct and every id is below the
    sequence, the same holds after any registration request, whatever the
    answer; the table is unchanged or longer by one row whose id is the
    sequence value. *)
Theorem register_keeps_keys (L : libs) (req : request) (db : database)
    (t : table user) :
  users db = Some t ->
  users_keyed t ->
  exists r db' t',
    register L req db = (Ok r, db') /\
    users db' = Some t' /\
    users_keyed t' /\
    (rows t' = rows t \/
     exists x, rows t' = (rows t ++ [x])%list /\ u_id x = nextval t).
Proof.
  intros Ht (Hid & Hname & Hmail & Hseq).
  destruct (register_result L req db)
    as (r & db' & E &
        [[_ ->]|(_ & t0 & un & em & nm & h & Ht0 & _ & _ & _ & _ & Hfu & Hfe
                 & ->)]).
  - exists r, db, t; repeat split; try assumption; left; reflexivity.
  - rewrite Ht in Ht0; injection Ht0 as <-.
    exists r, (with_users db (rows t ++ [mkUser (nextval t) un em h nm])
                 (nextval t + 1)),
      (mkTable (rows t ++ [mkUser (nextval t) un em h nm]) (nextval t + 1)).
    split; [exact E|]; split; [reflexivity|]; split.
    + unfold users_keyed; cbn [rows nextval]; rewrite !map_app; cbn [map].
      repeat split.
      * apply NoDup_snoc; [exact Hid|].
        intros Hin; apply in_map_iff in Hin; destruct Hin as (y & Hy & Hin).
        rewrite Forall_forall in Hseq; specialize (Hseq y Hin).
        cbn [u_id] in Hy; lia.
      * apply NoDup_snoc; [exact Hname|].
        apply existsb_eqb_not_in; exact Hfu.
      * apply NoDup_snoc; [exact Hmail|].
        apply existsb_eqb_not_in; exact Hfe.
      * apply Forall_app; split.
        -- eapply Forall_impl; [|exact Hseq]; cbv beta; intros; lia.
        -- constructor; [cbn [u_id]; lia|constructor].
    + right; eexists; split; reflexivity.
Qed.

Lemma two_users_keyed : users_keyed two_users.
Proof.
  unfold users_keyed; cbn [two_users rows nextval map alice bob u_id
                             u_username u_email].
  repeat split.
  - constructor; [intros [H|[]]; discriminate H|].
    constructor; [intros []|constructor].
  - constructor; [intros [H|[]]; discriminate H|].
    constructor; [intros []|constructor].
  - constructor; [intros [H|[]]; discriminate H|].
    constructor; [intros []|constructor].
  - constructor; [reflexivity|constructor; [reflexivity|constructor]].
Qed.

Lemma register_keeps_keys_witness :
  exists r db' t',
    register sample_libs
      (anonymous [("username", JStr "carol"); ("email", JStr "carol@example.org");
                  ("password", JStr "pw"); ("name", JStr "Carol")]) one_idea =
      (Ok r, db') /\
    users db' = Some t' /\
    users_keyed t' /\
    (rows t' = rows two_users \/
     exists x, rows t' = (rows two_users ++ [x])%list /\
               u_id x = nextval two_users).
Proof.
  apply (register_keeps_keys sample_libs _ one_idea two_users eq_refl).
  exact two_users_keyed.
Defined.

(** ** Listings *)

Lemma insert_desc_In {A : Type} (key : A -> Z) (x y : A) (l : list A) :
  In y (insert_desc key x l) <-> y = x \/ In y l.
Proof.
  induction l as [|a l IH]; cbn [insert_desc].
  - cbn [In]; intuition.
  - destruct (key a <=? key x); cbn [In]; [intuition|].
    rewrite IH; cbn [In]; intuition.
Qed.

Lemma order_by_desc_In {A : Type} (key : A -> Z) (y : A) (l : list A) :
  In y (order_by_desc key l) <-> In y l.
Proof.
  unfold order_by_desc; induction l as [|a l IH]; cbn [fold_right];
    [reflexivity|].
  rewrite insert_desc_In, IH; cbn [In]; intuition.
Qed.

Lemma insert_desc_sorted {A : Type} (key : A -> Z) (x : A) (l : list A) :
  newest_first key l -> newest_first key (insert_desc key x l).
Proof.
  unfold newest_first; induction 1 as [|a l Hl IH Ha]; cbn [insert_desc].
  - constructor; constructor.
  - destruct (key a <=? key x) eqn:E.
    + apply Z.leb_le in E.
      constructor; [constructor; assumption|].
      constructor; [exact E|].
      rewrite Forall_forall in Ha |- *; intros b Hb.
      specialize (Ha b Hb); cbv beta in *; lia.
    + apply Z.leb_gt in E.
      constructor; [exact IH|].
      rewrite Forall_forall in Ha |- *; intros b Hb.
      apply insert_desc_In in Hb; destruct Hb as [->|Hb].
      * cbv beta; lia.
      * exact (Ha b Hb).
Qed.

Lemma order_by_desc_sorted {A : Type} (key : A -> Z) (l : list A) :
  newest_first key (order_by_desc key l).
Proof.
  unfold order_by_desc; induction l as [|a l IH]; cbn [fold_right].
  - constructor.
  - apply insert_desc_sorted; exact IH.
Qed.

(** X6.  GET /api/ideas answers 200 with the ideas newest first; a row is
    in the answer exactly when its idea is in the table and its username is
    that of a user whose id is the idea's user_id.  The database is not
    changed. *)
Theorem list_all_ideas_rows (L : libs) (req : request) (db : database)
    (u : auth_user) (it : table idea) (ut : table user) :
  authenticated L req db u ->
  ideas db = Some it ->
  users db = Some ut ->
  exists l,
    list_all_ideas L req db = (Ok (mkResponse 200 (IdeaList l)), db) /\
    newest_first (fun r => i_created_at (io_idea r)) l /\
    forall r, In r l <->
              In (io_idea r) (rows it) /\
              exists x, In x (rows ut) /\ u_id x = i_user_id (io_idea r) /\
                        u_username x = io_username r.
Proof.
  intros Hu Hit Hut.
  unfold list_all_ideas; rewrite Hu.
  unfold select_ideas_with_owner; unfold_monad; rewrite Hit, Hut.
  eexists; split; [reflexivity|]; split; [apply order_by_desc_sorted|].
  intros r; rewrite order_by_desc_In, in_flat_map; split.
  - intros (i & Hi & Hr).
    apply in_map_iff in Hr; destruct Hr as (x & <- & Hx).
    apply filter_In in Hx; destruct Hx as [Hx Hid].
    apply Z.eqb_eq in Hid; cbn [io_idea io_username].
    split; [exact Hi|exists x; repeat split; congruence].
  - intros (Hi & x & Hx & Hid & Hname).
    exists (io_idea r); split; [exact Hi|].
    apply in_map_iff; exists x; split.
    + destruct r as [i n]; cbn [io_idea io_username] in *; congruence.
    + apply filter_In; split; [exact Hx|apply Z.eqb_eq; congruence].
Qed.

Lemma list_all_ideas_rows_witness :
  exists l,
    list_all_ideas sample_libs (as_bob "" []) one_idea =
      (Ok (mkResponse 200 (IdeaList l)), one_idea) /\
    newest_first (fun r => i_created_at (io_idea r)) l /\
    forall r, In r l <->
              In (io_idea r) [foo] /\
              exists x, In x [alice; bob] /\ u_id x = i_user_id (io_idea r) /\
                        u_username x = io_username r.
Proof.
  apply (list_all_ideas_rows sample_libs (as_bob "" []) one_idea
           (mkAuthUser 2 "bob" "bob@example.org") (mkTable [foo] 2) two_users).
  - intros next; reflexivity.
  - reflexivity.
  - reflexivity.
Defined.

(** X7.  GET /api/my-ideas answers 200 with, newest first, the ideas whose
    user_id is the requester's id and no other, each without its owner
    column. *)
Theorem list_my_ideas_rows (L : libs) (req : request) (db : database)
    (u : auth_user) (it : table idea) :
  authenticated L req db u ->
  ideas db = Some it ->
  exists l,
    list_my_ideas L req db = (Ok (mkResponse 200 (MyIdeaList l)), db) /\
    newest_first m_created_at l /\
    forall m, In m l <->
              exists i, In i (rows it) /\ i_user_id i = au_id u /\
                        m = my_columns i.
Proof.
  intros Hu Hit.
  unfold list_my_ideas; rewrite Hu.
  unfold select_my_ideas; unfold_monad; rewrite Hit.
  eexists; split; [reflexivity|]; split; [apply order_by_desc_sorted|].
  intros m; rewrite order_by_desc_In, in_map_iff; split.
  - intros (i & <- & Hi); apply filter_In in Hi; destruct Hi as [Hi Hown].
    apply Z.eqb_eq in Hown; exists i; repeat split; assumption.
  - intros (i & Hi & Hown & ->); exists i; split; [reflexivity|].
    apply filter_In; split; [exact Hi|apply Z.eqb_eq; exact Hown].
Qed.

Lemma list_my_ideas_rows_witness :
  exists l,
    list_my_ideas sample_libs (as_bob "" []) one_idea =
      (Ok (mkResponse 200 (MyIdeaList l)), one_idea) /\
    newest_first m_created_at l /\
    forall m, In m l <->
              exists i, In i [foo] /\ i_user_id i = 2 /\ m = my_columns i.
Proof.
  apply (list_my_ideas_rows sample_libs (as_bob "" []) one_idea
           (mkAuthUser 2 "bob" "bob@example.org") (mkTable [foo] 2)).
  - intros next; reflexivity.
  - reflexivity.
Defined.

(** X8.  GET /api/ideas/:id/comments, for an id of the path that reads as
    an integer, answers 200 with, newest first, the comments whose idea_id
    is that integer and no other; whether an idea of that id exists is not
    looked at. *)
Theorem get_comments_rows (L : libs) (req : request) (db : database)
    (u : auth_user) (ct : table comment) (k : Z) :
  authenticated L req db u ->
  comments db = Some ct ->
  int4in L (params_id req) = Some k ->
  exists l,
    get_comments L req db = (Ok (mkResponse 200 (CommentList l)), db) /\
    newest_first c_created_at l /\
    forall c, In c l <-> In c (rows ct) /\ c_idea_id c = k.
Proof.
  intros Hu Hct Hk.
  unfold get_comments; rewrite Hu.
  unfold select_comments_of_idea, pg_int; cbn [pg_text]; rewrite Hk.
  unfold_monad; rewrite Hct.
  eexists; split; [reflexivity|]; split; [apply order_by_desc_sorted|].
  intros c; rewrite order_by_desc_In, filter_In; cbn [int_eq].
  rewrite Z.eqb_eq; reflexivity.
Qed.

Lemma get_comments_rows_witness :
  exists l,
    get_comments sample_libs (as_bob "1" []) deep_thread =
      (Ok (mkResponse 200 (CommentList l)), deep_thread) /\
    newest_first c_created_at l /\
    forall c, In c l <->
              In c [top; reply_to_top; reply_to_reply] /\ c_idea_id c = 1.
Proof.
  apply (get_comments_rows sample_libs (as_bob "1" []) deep_thread
           (mkAuthUser 2 "bob" "bob@example.org")
           (mkTable [top; reply_to_top; reply_to_reply] 4) 1).
  - intros next; reflexivity.
  - reflexivity.
  - reflexivity.
Defined.

(** ** Single ideas *)

(** X9.  GET /api/ideas/:id answers 404 "Idea not found." when the join
    gives no row: no idea has the id, or those that have it reference no
    row of users. *)
Theorem get_one_idea_not_found (L : libs) (req : request) (db : database)
    (u : auth_user) (it : table idea) (ut : table user) (k : Z) :
  authenticated L req db u ->
  ideas db = Some it ->
  users db = Some ut ->
  int4in L (params_id req) = Some k ->
  (forall i x, In i (rows it) -> In x (rows ut) -> i_id i = k ->
               u_id x <> i_user_id i) ->
  get_one_idea L req db =
  (Ok (mkResponse 404 (Message "Idea not found.")), db).
Proof.
  intros Hu Hit Hut Hk Hnone.
  unfold get_one_idea; rewrite Hu.
  unfold select_idea_detail, pg_int; cbn [pg_text]; rewrite Hk.
  unfold_monad; rewrite Hit, Hut; cbn [int_eq].
  destruct (flat_map _ (filter (fun i => i_id i =? k) (rows it)))
    as [|d l] eqn:E; [reflexivity|exfalso].
  assert (Hd : In d (d :: l)) by (left; reflexivity).
  rewrite <- E in Hd; apply in_flat_map in Hd; destruct Hd as (i & Hi & Hd).
  apply filter_In in Hi; destruct Hi as [Hi Hid]; apply Z.eqb_eq in Hid.
  apply in_map_iff in Hd; destruct Hd as (x & _ & Hx).
  apply filter_In in Hx; destruct Hx as [Hx Hown]; apply Z.eqb_eq in Hown.
  apply (Hnone i x Hi Hx Hid); congruence.
Qed.

Lemma get_one_idea_not_found_witness :
  get_one_idea sample_libs (as_bob "9" []) one_idea =
  (Ok (mkResponse 404 (Message "Idea not found.")), one_idea).
Proof.
  apply (get_one_idea_not_found sample_libs (as_bob "9" []) one_idea
           (mkAuthUser 2 "bob" "bob@example.org") (mkTable [foo] 2)
           two_users 9).
  - intros next; reflexivity.
  - reflexivity.
  - reflexivity.
  - reflexivity.
  - intros i x [<-|[]] _ H; discriminate H.
Defined.

(** The INSERT of the create handler, for a title and an owner the tables
    accept. *)
Lemma create_idea_handler_ok (u : auth_user) (req : request) (db : database)
    (it : table idea) (ut : table user) (title : string) :
  truthy (prop (req_body req) "title") = true ->
  pg_text (prop (req_body req) "title") = Some title ->
  idea_accepted (req_body req) = true ->
  ideas db = Some it ->
  users db = Some ut ->
  existsb (fun x => u_id x =? au_id u) (rows ut) = true ->
  create_idea_handler u req db =
  (Ok (mkResponse 201 Success),
   with_ideas db
     (rows it ++
      [mkIdea (nextval it) title
         (pg_text (prop (req_body req) "description"))
         (pg_text (prop (req_body req) "short_description"))
         (pg_text (prop (req_body req) "area"))
         (pg_text (prop (req_body req) "status"))
         (au_id u) (now req)])
     (nextval it + 1)).
Proof.
  intros Htruthy Htitle Hacc Hit Hut Huser.
  unfold create_idea_handler, insert_idea, binding.
  unfold idea_accepted in Hacc; rewrite Hacc.
  rewrite Htruthy, Htitle; cbn [negb].
  unfold_monad; rewrite Hit; cbn [put_ideas users]; rewrite Hut.
  unfold ret; cbn [users rows]; rewrite Huser.
  unfold with_ideas; rewrite Hut; reflexivity.
Qed.

(** X10.  Create, then fetch: POST /api/ideas with a title, and with
    values PostgreSQL takes, is answered 201
    and the idea gets the table's next sequence value as id; a later
    GET /api/ideas/<that id> answers 200 with the columns as bound from the
    body (absent ones null), the requester as owner with his name and
    username, and the time of the POST as created_at. *)
Theorem create_then_get (L : libs) (req req' : request) (db : database)
    (u u' : auth_user) (it : table idea) (ut : table user) (x : user)
    (title : string) :
  authenticated L req db u ->
  truthy (prop (req_body req) "title") = true ->
  pg_text (prop (req_body req) "title") = Some title ->
  idea_accepted (req_body req) = true ->
  ideas db = Some it ->
  users db = Some ut ->
  find (fun y => au_id u =? u_id y) (rows ut) = Some x ->
  Forall (fun i => i_id i < nextval it) (rows it) ->
  int4in L (params_id req') = Some (nextval it) ->
  let created :=
    mkIdea (nextval it) title
      (pg_text (prop (req_body req) "description"))
      (pg_text (prop (req_body req) "short_description"))
      (pg_text (prop (req_body req) "area"))
      (pg_text (prop (req_body req) "status"))
      (au_id u) (now req) in
  let db1 := with_ideas db (rows it ++ [created]) (nextval it + 1) in
  authenticated L req' db1 u' ->
  create_idea L req db = (Ok (mkResponse 201 Success), db1) /\
  get_one_idea L req' db1 =
  (Ok (mkResponse 200
         (IdeaDetail (mkIdeaDetail created (u_name x) (u_username x)))),
   db1).
Proof.
  intros Hu Htruthy Htitle Hacc Hit Hut Hx Hseq Hk created db1 Hu'.
  pose proof (find_some _ _ Hx) as [Hin Hown]; apply Z.eqb_eq in Hown.
  split.
  - unfold create_idea; rewrite Hu.
    apply (create_idea_handler_ok u req db it ut title); try assumption.
    apply existsb_exists; exists x; split; [exact Hin|].
    apply Z.eqb_eq; symmetry; exact Hown.
  - unfold get_one_idea; rewrite Hu'.
    unfold select_idea_detail, pg_int; cbn [pg_text]; rewrite Hk.
    subst db1 created.
    unfold_monad; unfold with_ideas; cbn [ideas users rows].
    rewrite Hut; cbn [int_eq].
    rewrite filter_app, filter_none.
    2:{ rewrite Forall_forall in Hseq; intros i Hi.
        apply Z.eqb_neq; specialize (Hseq i Hi); lia. }
    cbn [filter app i_id]; rewrite Z.eqb_refl.
    cbn [flat_map i_user_id]; rewrite app_nil_r.
    destruct (filter_first _ _ _ Hx) as [l' ->]; reflexivity.
Qed.

Lemma create_then_get_witness :
  create_idea sample_libs
    (as_bob "" [("title", JStr "Bar"); ("status", JStr "Draft")]) one_idea =
    (Ok (mkResponse 201 Success),
     with_ideas one_idea
       [foo; mkIdea 2 "Bar" None None None (Some "Draft") 2 1000] 3) /\
  get_one_idea sample_libs (as_alice "2" [])
    (with_ideas one_idea
       [foo; mkIdea 2 "Bar" None None None (Some "Draft") 2 1000] 3) =
    (Ok (mkResponse 200
           (IdeaDetail
              (mkIdeaDetail
                 (mkIdea 2 "Bar" None None None (Some "Draft") 2 1000)
                 "Bob" "bob"))),
     with_ideas one_idea
       [foo; mkIdea 2 "Bar" None None None (Some "Draft") 2 1000] 3).
Proof.
  apply (create_then_get sample_libs
           (as_bob "" [("title", JStr "Bar"); ("status", JStr "Draft")])
           (as_alice "2" []) one_idea
           (mkAuthUser 2 "bob" "bob@example.org")
           (mkAuthUser 1 "alice" "alice@example.org")
           (mkTable [foo] 2) two_users bob "Bar").
  - intros next; reflexivity.
  - reflexivity.
  - reflexivity.
  - reflexivity.
  - reflexivity.
  - reflexivity.
  - reflexivity.
  - constructor; [reflexivity|constructor].
  - reflexivity.
  - intros next; reflexivity.
Defined.

(** X11.  DELETE /api/ideas/:id for an id that reads as an integer no
    idea has as key is answered 403 "Not your idea.", as for somebody
    else's idea, and deletes nothing. *)
Theorem delete_missing_idea_forbidden (L : libs) (req : request)
    (db : database) (u : auth_user) (it : table idea) (k : Z) :
  authenticated L req db u ->
  ideas db = Some it ->
  int4in L (params_id req) = Some k ->
  (forall i, In i (rows it) -> i_id i <> k) ->
  delete_idea L req db = (Ok (mkResponse 403 (Message "Not your idea.")), db).
Proof.
  intros Hu Hit Hk Hnone.
  unfold delete_idea; rewrite Hu.
  unfold delete_idea_handler, select_idea_owner, pg_int; cbn [pg_text].
  rewrite Hk; unfold_monad; rewrite Hit; cbn [int_eq].
  rewrite filter_none; [reflexivity|].
  intros i Hi; apply Z.eqb_neq, Hnone, Hi.
Qed.

Lemma delete_missing_idea_forbidden_witness :
  delete_idea sample_libs (as_alice "9" []) commented_idea =
  (Ok (mkResponse 403 (Message "Not your idea.")), commented_idea).
Proof.
  apply (delete_missing_idea_forbidden sample_libs (as_alice "9" [])
           commented_idea (mkAuthUser 1 "alice" "alice@example.org")
           (mkTable [foo] 2) 9).
  - intros next; reflexivity.
  - reflexivity.
  - reflexivity.
  - intros i [<-|[]]; discriminate.
Defined.

(** ** Comments *)

Lemma existsb_key {A : Type} (key : A -> Z) (k : Z) (l : list A) (a : A) :
  In a l -> key a = k -> existsb (fun y => key y =? k) l = true.
Proof.
  intros Ha Hk; apply existsb_exists; exists a; split; [exact Ha|].
  apply Z.eqb_eq; exact Hk.
Qed.

(** X12.  POST /api/ideas/:id/comments with [parentId] reading as the key
    of any comment, and a comment text and a username PostgreSQL takes, is
    answered 201 with the inserted row, which carries the requester's id
    and username and that parent: the parent may itself be a reply, and may
    be on another idea, as nothing about it is looked at beyond its key. *)
Theorem post_reply_to_any_comment (L : libs) (req : request) (db : database)
    (u : auth_user) (ct : table comment) (it : table idea) (ut : table user)
    (k p : Z) (text parent : string) (i : idea) (x : user) (d : comment) :
  authenticated L req db u ->
  truthy (prop (req_body req) "comment") = true ->
  pg_text (prop (req_body req) "comment") = Some text ->
  has_nul text = false ->
  has_nul (au_username u) = false ->
  pg_text (prop (req_body req) "parentId") = Some parent ->
  int4in L parent = Some p ->
  int4in L (params_id req) = Some k ->
  comments db = Some ct ->
  ideas db = Some it ->
  users db = Some ut ->
  In i (rows it) -> i_id i = k ->
  In x (rows ut) -> u_id x = au_id u ->
  In d (rows ct) -> c_id d = p ->
  let row :=
    mkComment (nextval ct) k (au_id u) (au_username u) text (now req)
      (Some p) in
  post_comment L req db =
  (Ok (mkResponse 201 (CommentRow (Some row))),
   with_comments db (rows ct ++ [row]) (nextval ct + 1)).
Proof.
  intros Hu Htruthy Htext Htext0 Hname0 Hparent Hp Hk Hct Hit Hut Hi Hik
    Hx Hxu Hd Hdp row.
  unfold post_comment; rewrite Hu.
  unfold insert_comment, pg_int, binding; cbn [forallb].
  unfold accepted; cbn [pg_text].
  rewrite Htruthy, Hparent, Htext, Htext0, Hname0, Hp, Hk.
  cbn [negb andb].
  unfold_monad; rewrite Hct; cbn [put_comments ideas users].
  rewrite Hit, Hut; unfold ret; cbn [ideas users rows].
  rewrite (existsb_key i_id k _ i Hi Hik), (existsb_key u_id _ _ x Hx Hxu).
  cbn [negb]; rewrite existsb_app, (existsb_key c_id p _ d Hd Hdp).
  cbn [orb negb]; unfold with_comments; rewrite Hit, Hut; reflexivity.
Qed.

Lemma post_reply_to_any_comment_witness :
  post_comment sample_libs
    (as_alice "1" [("comment", JStr "third");
                   ("parentId", JNum (mkNumber false "2"))])
    flat_thread =
  (Ok (mkResponse 201
         (CommentRow (Some (mkComment 3 1 1 "alice" "third" 1000 (Some 2))))),
   with_comments flat_thread
     [top; reply_to_top; mkComment 3 1 1 "alice" "third" 1000 (Some 2)] 4).
Proof.
  apply (post_reply_to_any_comment sample_libs
           (as_alice "1" [("comment", JStr "third");
                          ("parentId", JNum (mkNumber false "2"))])
           flat_thread (mkAuthUser 1 "alice" "alice@example.org")
           (mkTable [top; reply_to_top] 3) (mkTable [foo] 2) two_users
           1 2 "third" "2" foo alice reply_to_top);
    try reflexivity.
  - intros next; reflexivity.
  - left; reflexivity.
  - left; reflexivity.
  - right; left; reflexivity.
Defined.

(** X13.  POST /api/ideas/:id/comments on an id that reads as an integer
    no idea has as key, with a comment text and a username PostgreSQL
    takes, is answered 500 "Server error.": the foreign key rejects the
    row, no comment is added, and the sequence value taken for it is not
    given back. *)
Theorem post_comment_on_missing_idea (L : libs) (req : request)
    (db : database) (u : auth_user) (ct : table comment) (it : table idea)
    (ut : table user) (k : Z) :
  authenticated L req db u ->
  truthy (prop (req_body req) "comment") = true ->
  accepted (prop (req_body req) "comment") = true ->
  has_nul (au_username u) = false ->
  prop (req_body req) "parentId" = JUndefined ->
  int4in L (params_id req) = Some k ->
  comments db = Some ct ->
  ideas db = Some it ->
  users db = Some ut ->
  (forall i, In i (rows it) -> i_id i <> k) ->
  post_comment L req db =
  (Ok (mkResponse 500 (Message "Server error.")),
   with_comments db (rows ct) (nextval ct + 1)).
Proof.
  intros Hu Htruthy Hacc Hname0 Hparent Hk Hct Hit Hut Hnone.
  destruct (truthy_text _ Htruthy) as [text Htext].
  unfold post_comment; rewrite Hu.
  unfold insert_comment, pg_int, binding; cbn [forallb].
  rewrite Hacc; unfold accepted at 1; cbn [pg_text]; rewrite Hname0.
  rewrite Htruthy, Hparent, Htext.
  cbn [negb andb pg_text]; rewrite Hk.
  unfold_monad; rewrite Hct; cbn [put_comments ideas users].
  rewrite Hit, Hut; unfold ret; cbn [ideas users rows].
  replace (existsb (fun i => i_id i =? k) (rows it)) with false.
  - cbn [negb]; unfold with_comments; rewrite Hit, Hut; reflexivity.
  - symmetry; apply not_true_is_false; intros E.
    apply existsb_exists in E; destruct E as (i & Hi & E).
    apply Z.eqb_eq in E; exact (Hnone i Hi E).
Qed.

Lemma post_comment_on_missing_idea_witness :
  post_comment sample_libs (as_alice "9" [("comment", JStr "hello")])
    commented_idea =
  (Ok (mkResponse 500 (Message "Server error.")),
   with_comments commented_idea [top] 3).
Proof.
  apply (post_comment_on_missing_idea sample_libs
           (as_alice "9" [("comment", JStr "hello")]) commented_idea
           (mkAuthUser 1 "alice" "alice@example.org")
           (mkTable [top] 2) (mkTable [foo] 2) two_users 9).
  - intros next; reflexivity.
  - reflexivity.
  - reflexivity.
  - reflexivity.
  - reflexivity.
  - reflexivity.
  - reflexivity.
  - reflexivity.
  - reflexivity.
  - intros i [<-|[]]; discriminate.
Defined.

(** ** Feedback *)

(** X14.  POST /api/feedback, which no auth helper guards, with a feedback
    text and an email PostgreSQL takes is answered 201 and appends one row:
    its email is the email of the body as bound, null when the body has
    none, whichever of the two column lists the handler builds; its
    created_at is the database's clock, the column's default. *)
Theorem post_feedback_row (req : request) (db : database)
    (ft : table feedback_row) (text : string) :
  truthy (prop (req_body req) "feedback") = true ->
  pg_text (prop (req_body req) "feedback") = Some text ->
  accepted (prop (req_body req) "feedback") = true ->
  accepted (prop (req_body req) "email") = true ->
  feedback db = Some ft ->
  post_feedback req db =
  (Ok (mkResponse 201 (SuccessMessage "Feedback submitted.")),
   with_feedback db
     (rows ft ++
      [mkFeedback (nextval ft) (pg_text (prop (req_body req) "email")) text
         (db_now req)])
     (nextval ft + 1)).
Proof.
  intros Htruthy Htext Haf Hae Hft.
  unfold post_feedback, insert_feedback, binding; rewrite Htruthy; cbn [negb].
  destruct (prop (req_body req) "email") as [| |b|n|s|o] eqn:Hemail;
    cbn [is_defined List.length app bound_to feedback_column_eqb option_map
           column_value param Z.of_nat forallb];
    rewrite Haf, ?Hae; cbn [andb];
    unfold param; cbn [Z.sub Z.add Z.opp Z.pos_sub Z.to_nat Pos.to_nat
                         Pos.iter_op Pos.of_succ_nat Pos.succ Init.Nat.add
                         Z.of_nat nth option_map column_value Pos.pred_double
                         Z.succ_double Z.pred_double Z.double];
    rewrite Htext; unfold_monad; rewrite Hft; reflexivity.
Qed.

Lemma post_feedback_row_witness :
  post_feedback (anonymous [("feedback", JStr "nice")]) one_idea =
  (Ok (mkResponse 201 (SuccessMessage "Feedback submitted.")),
   with_feedback one_idea [mkFeedback 1 None "nice" 1001] 2).
Proof.
  apply (post_feedback_row (anonymous [("feedback", JStr "nice")]) one_idea
           fresh_table "nice"); reflexivity.
Defined.

(** ** References kept by the delete routes *)






(** What DELETE /api/ideas/:id leaves: the database as it was, or the
    ideas table without the rows of the key, none of which a comment was
    on. *)
Lemma delete_idea_result (L : libs) (req : request) (db : database) :
  exists r db',
    delete_idea L req db = (Ok r, db') /\
    (db' = db \/
     exists it k,
       ideas db = Some it /\
       db' = with_ideas db (filter (fun i => negb (i_id i =? k)) (rows it))
               (nextval it) /\
       forall ct c i, comments db = Some ct -> In c (rows ct) ->
                      In i (rows it) -> i_id i = k -> c_idea_id c <> i_id i).
Proof.
  unfold delete_idea.
  destruct (authenticateToken_cases L req db) as [[u Hu]|[m Hm]];
    [rewrite Hu|rewrite Hm; do 2 eexists; split; [reflexivity|left; easy]].
  unfold delete_idea_handler, select_idea_owner, delete_from_ideas, pg_int.
  cbn [pg_text].
  destruct (ideas db) as [it|] eqn:Hit.
  2:{ unfold_monad; rewrite Hit.
      do 2 eexists; split; [reflexivity|left; easy]. }
  destruct (int4in L (params_id req)) as [k|] eqn:Hk.
  2:{ unfold_monad; rewrite Hit.
      do 2 eexists; split; [reflexivity|left; easy]. }
  unfold_monad; rewrite Hit; cbn [int_eq].
  destruct (map i_user_id (filter (fun i => i_id i =? k) (rows it)))
    as [|owner l']; [do 2 eexists; split; [reflexivity|left; easy]|].
  destruct (negb (owner =? au_id u));
    [do 2 eexists; split; [reflexivity|left; easy]|].
  rewrite Hit; cbv beta iota.
  destruct (match comments db with
            | Some ct =>
                existsb
                  (fun c => existsb
                              (fun i => (i_id i =? k) && (c_idea_id c =? i_id i))
                              (rows it))
                  (rows ct)
            | None => false
            end) eqn:Href.
  - do 2 eexists; split; [reflexivity|left; easy].
  - do 2 eexists; split; [reflexivity|right].
    exists it, k; repeat split.
    intros ct c i Hct Hc Hi Hid Hon.
    rewrite Hct in Href.
    assert (E : existsb
                  (fun c => existsb
                              (fun i => (i_id i =? k) && (c_idea_id c =? i_id i))
                              (rows it))
                  (rows ct) = true).
    { apply existsb_exists; exists c; split; [exact Hc|].
      apply existsb_exists; exists i; split; [exact Hi|].
      apply andb_true_iff; split; apply Z.eqb_eq; assumption. }
    rewrite E in Href; discriminate Href.
Qed.

(** X16.  DELETE /api/ideas/:id never leaves a comment without its idea:
    if every comment is on an idea of the table, the same holds after the
    request, whatever it answered. *)
Theorem delete_idea_keeps_comment_ideas (L : libs) (req : request)
    (db : database) :
  comment_ideas_present db ->
  exists r db',
    delete_idea L req db = (Ok r, db') /\ comment_ideas_present db'.
Proof.
  intros Hdb.
  destruct (delete_idea_result L req db)
    as (r & db' & E & [->|(it & k & Hit & -> & Hfree)]).
  - exists r, db; split; assumption.
  - eexists; eexists; split; [exact E|].
    intros ct it' c Hct Hit' Hc.
    unfold with_ideas in Hct, Hit'; cbn [comments ideas] in Hct, Hit'.
    injection Hit' as <-; cbn [rows].
    destruct (Hdb ct it c Hct Hit Hc) as (i & Hi & Hid).
    exists i; split; [|exact Hid].
    apply filter_In; split; [exact Hi|].
    apply negb_true_iff, Z.eqb_neq; intros Hk.
    apply (Hfree ct c i Hct Hc Hi Hk); symmetry; exact Hid.
Qed.

Lemma delete_idea_keeps_comment_ideas_witness :
  exists r db',
    delete_idea sample_libs (as_alice "1" []) commented_idea = (Ok r, db') /\
    comment_ideas_present db'.
Proof.
  apply (delete_idea_keeps_comment_ideas sample_libs (as_alice "1" [])
           commented_idea).
  intros ct it c Hct Hit Hc.
  injection Hct as <-; injection Hit as <-.
  destruct Hc as [<-|[]].
  exists foo; split; [left; reflexivity|reflexivity].
Defined.

Lemma pg_int_pure (L : libs) (v : jsval) (db : database) :
  exists res, pg_int L v db = (res, db).
Proof.
  unfold pg_int; destruct (pg_text v) as [s|]; [|eexists; reflexivity].
  destruct (int4in L s); eexists; reflexivity.
Qed.

Lemma binding_pure (params : list jsval) (db : database) :
  exists res, binding params db = (res, db).
Proof.
  unfold binding; destruct (forallb accepted params); eexists; reflexivity.
Qed.

(** What the INSERT of a comment leaves: the table as it was (with or
    without a sequence value used up), or one more row under the next
    sequence value whose parent, if it has one, is in the table. *)
Lemma insert_comment_result (L : libs) (idea_id : string) (user_id : Z)
    (username : string) (text : jsval) (created_at : Z) (parent_id : jsval)
    (db : database) (ct : table comment) :
  comments db = Some ct ->
  exists res db',
    insert_comment L idea_id user_id username text created_at parent_id db
    = (res, db') /\
    (db' = db \/
     db' = with_comments db (rows ct) (nextval ct + 1) \/
     exists row,
       db' = with_comments db (rows ct ++ [row]) (nextval ct + 1) /\
       c_id row = nextval ct /\
       forall p, c_parent_id row = Some p ->
                 existsb (fun c => c_id c =? p) (rows ct ++ [row]) = true).
Proof.
  intros Hct.
  unfold insert_comment, bind at 1, relation; rewrite Hct.
  unfold bind at 1.
  destruct (binding_pure [JStr username; text] db) as [[[]|e] ->];
    [|do 2 eexists; split; [reflexivity|left; reflexivity]].
  unfold bind at 1.
  destruct (pg_int_pure L (JStr idea_id) db) as [[k|e] ->];
    [|do 2 eexists; split; [reflexivity|left; reflexivity]].
  unfold bind at 1.
  destruct (pg_int_pure L parent_id db) as [[p|e] ->];
    [|do 2 eexists; split; [reflexivity|left; reflexivity]].
  unfold bind at 1, put_comments.
  unfold bind at 1, not_null.
  destruct k as [k|]; unfold ret, throw;
    [|do 2 eexists; split; [reflexivity|right; left; reflexivity]].
  unfold bind at 1.
  destruct (pg_text text) as [txt|];
    [|do 2 eexists; split; [reflexivity|right; left; reflexivity]].
  unfold bind at 1; cbn [ideas].
  destruct (ideas db) as [it|] eqn:Hit;
    [|do 2 eexists; split;
      [reflexivity
      |right; left; unfold with_comments; rewrite Hit; reflexivity]].
  unfold bind at 1; cbn [users].
  destruct (users db) as [ut|] eqn:Hut;
    [|do 2 eexists; split;
      [reflexivity
      |right; left; unfold with_comments; rewrite Hit, Hut; reflexivity]].
  destruct (negb (existsb (fun i => i_id i =? k) (rows it)));
    [do 2 eexists; split;
     [reflexivity
     |right; left; unfold with_comments; rewrite Hit, Hut; reflexivity]|].
  destruct (negb (existsb (fun u => u_id u =? user_id) (rows ut)));
    [do 2 eexists; split;
     [reflexivity
     |right; left; unfold with_comments; rewrite Hit, Hut; reflexivity]|].
  destruct p as [p|].
  - destruct (existsb (fun c => c_id c =? p)
                (rows ct ++
                 [mkComment (nextval ct) k user_id username txt created_at
                    (Some p)])) eqn:Hparent; cbn [negb].
    + do 2 eexists; split; [reflexivity|right; right].
      eexists; split; [unfold with_comments; rewrite Hit, Hut; reflexivity|].
      split; [reflexivity|].
      intros q [= <-]; exact Hparent.
    + do 2 eexists; split;
        [reflexivity
        |right; left; unfold with_comments; rewrite Hit, Hut; reflexivity].
  - do 2 eexists; split; [reflexivity|right; right].
    eexists; split; [unfold with_comments; rewrite Hit, Hut; reflexivity|].
    split; [reflexivity|].
    intros q Hq; discriminate Hq.
Qed.

Lemma parents_present_snoc (l : list comment) (row : comment) :
  parents_present l ->
  (forall p, c_parent_id row = Some p ->
             existsb (fun c => c_id c =? p) (l ++ [row]) = true) ->
  parents_present (l ++ [row]).
Proof.
  intros Hl Hrow c p Hc Hp.
  apply in_app_or in Hc; destruct Hc as [Hc|[<-|[]]].
  - destruct (Hl c p Hc Hp) as (d & Hd & Hid).
    exists d; split; [apply in_or_app; left; exact Hd|exact Hid].
  - specialize (Hrow p Hp); apply existsb_exists in Hrow.
    destruct Hrow as (d & Hd & Hid); apply Z.eqb_eq in Hid.
    exists d; split; assumption.
Qed.

(** X17.  POST /api/ideas/:id/comments never stores a reply whose parent
    is missing: if every parent_id of the table is the key of a comment of
    the table, the same holds after the request, whatever it answered; the
    rows are those of before, or those and one more under the sequence
    value. *)
Theorem post_comment_keeps_parents (L : libs) (req : request) (db : database)
    (t : table comment) :
  comments db = Some t ->
  parents_present (rows t) ->
  exists r db' t',
    post_comment L req db = (Ok r, db') /\
    comments db' = Some t' /\
    parents_present (rows t') /\
    (rows t' = rows t \/
     exists c, rows t' = (rows t ++ [c])%list /\ c_id c = nextval t).
Proof.
  intros Ht Hp.
  unfold post_comment.
  destruct (authenticateToken_cases L req db) as [[u Hu]|[m Hm]];
    [rewrite Hu|rewrite Hm; exists (mkResponse 401 (Message m)), db, t;
                repeat split; try assumption; left; reflexivity].
  unfold try_catch.
  destruct (negb (truthy (prop (req_body req) "comment"))).
  { eexists; exists db, t; repeat split; try assumption; left; reflexivity. }
  unfold bind.
  destruct (insert_comment_result L (params_id req) (au_id u) (au_username u)
              (prop (req_body req) "comment") (now req)
              (prop (req_body req) "parentId") db t Ht)
    as (res & db' & -> & [->|[->|(row & -> & Hid & Hrow)]]).
  - destruct res; eexists; exists db, t;
      (split; [reflexivity|repeat split; try assumption; left; reflexivity]).
  - destruct res; eexists; eexists; exists (mkTable (rows t) (nextval t + 1));
      (split; [reflexivity|repeat split; try assumption; left; reflexivity]).
  - destruct res; eexists; eexists;
      exists (mkTable (rows t ++ [row]) (nextval t + 1));
      (split; [reflexivity|]); (split; [reflexivity|]);
      (split; [apply parents_present_snoc; assumption|]);
      right; exists row; split; (reflexivity || assumption).
Qed.

Lemma post_comment_keeps_parents_witness :
  exists r db' t',
    post_comment sample_libs
      (as_alice "1" [("comment", JStr "third"); ("parentId", JNum (mkNumber false "2"))])
      flat_thread = (Ok r, db') /\
    comments db' = Some t' /\
    parents_present (rows t') /\
    (rows t' = [top; reply_to_top] \/
     exists c, rows t' = ([top; reply_to_top] ++ [c])%list /\ c_id c = 3).
Proof.
  apply (post_comment_keeps_parents sample_libs
           (as_alice "1" [("comment", JStr "third"); ("parentId", JNum (mkNumber false "2"))])
           flat_thread (mkTable [top; reply_to_top] 3) eq_refl).
  intros c p [<-|[<-|[]]] Hp; cbn in Hp; try discriminate Hp;
    injection Hp as <-.
  exists top; split; [left; reflexivity|reflexivity].
Defined.

(** ** The create-table handlers *)

Lemma all_relations_complete (d : relname) : In d all_relations.
Proof. destruct d; cbn; tauto. Qed.

(** X18.  A create-table handler resets its table: when no existing table
    references it and the tables it references exist, the answer is 200
    with the handler's "created" message and the table is empty with its
    sequence back at 1, whatever rows it had; the other tables are as
    before. *)
Theorem create_table_resets (r : relname) (created failed : string)
    (db : database) :
  (forall d, In r (references d) -> exists_table d db = false) ->
  (forall d, In d (references r) -> exists_table d db = true) ->
  create_table r created failed db =
  (Ok (mkResponse 200 (Message created)), set_table r true db).
Proof.
  intros Hdep Href.
  assert (Hdrop : drop_table_if_exists r db = (Ok tt, set_table r false db)).
  { unfold drop_table_if_exists.
    destruct (exists_table r db) eqn:Hr; cbn [negb].
    - replace (existsb _ all_relations) with false; [reflexivity|].
      symmetry; apply not_true_is_false; intros E.
      apply existsb_exists in E; destruct E as (d & _ & E).
      apply andb_true_iff in E; destruct E as [Hd Hin].
      apply existsb_exists in Hin; destruct Hin as (r' & Hin & Heq).
      assert (r' = r) by (destruct r, r'; cbn in Heq; congruence); subst r'.
      rewrite (Hdep d Hin) in Hd; discriminate Hd.
    - f_equal; destruct r, db as [[tu|] [ti|] [tc|] [tf|]];
        cbn in Hr |- *; congruence. }
  assert (Hcreate : create_table_if_not_exists r (set_table r false db) =
                    (Ok tt, set_table r true db)).
  { unfold create_table_if_not_exists.
    replace (exists_table r (set_table r false db)) with false
      by (destruct r; reflexivity).
    replace (find (fun d => negb (exists_table d (set_table r false db)))
               (references r)) with (@None relname).
    - f_equal; destruct r; reflexivity.
    - symmetry.
      destruct (find (fun d => negb (exists_table d (set_table r false db)))
                  (references r)) as [d|] eqn:E; [exfalso|reflexivity].
      apply find_some in E; destruct E as [Hin Hd].
      apply negb_true_iff in Hd.
      specialize (Href d Hin).
      destruct r, d; cbn in Hin, Hd, Href; try tauto;
        try (destruct Hin as [Hin|[Hin|[]]]; discriminate Hin);
        try (destruct Hin as [Hin|[]]; discriminate Hin);
        congruence. }
  unfold create_table; unfold_monad; rewrite Hdrop, Hcreate; reflexivity.
Qed.

Lemma create_table_resets_witness :
  create_table_users (anonymous []) users_only =
  (Ok (mkResponse 200 (Message "Users table created.")),
   mkDb (Some fresh_table) None None None).
Proof.
  apply (create_table_resets Users "Users table created."
           "Error creating users table." users_only).
  - intros d; destruct d; cbn; intros H; try reflexivity; tauto.
  - intros d [].
Defined.

(** X19.  A create-table handler is refused while a table that references
    its table exists: DROP TABLE fails, the answer is 500 with the
    handler's "error" message, and nothing is dropped or created.  So users
    cannot be reset while ideas or comments exists, nor ideas while
    comments exists. *)
Theorem create_table_refused (r d : relname) (created failed : string)
    (db : database) :
  exists_table r db = true ->
  exists_table d db = true ->
  In r (references d) ->
  create_table r created failed db =
  (Ok (mkResponse 500 (Message failed)), db).
Proof.
  intros Hr Hd Hin.
  unfold create_table, drop_table_if_exists; unfold_monad.
  rewrite Hr; cbn [negb].
  replace (existsb _ all_relations) with true; [reflexivity|].
  symmetry; apply existsb_exists; exists d; split;
    [apply all_relations_complete|].
  rewrite Hd; cbn [andb].
  apply existsb_exists; exists r; split; [exact Hin|].
  destruct r; reflexivity.
Qed.

Lemma create_table_refused_witness :
  create_table_users (anonymous []) one_idea =
  (Ok (mkResponse 500 (Message "Error creating users table.")), one_idea).
Proof.
  apply (create_table_refused Users Ideas "Users table created."
           "Error creating users table." one_idea).
  - reflexivity.
  - reflexivity.
  - left; reflexivity.
Defined.

(** ** Inputs on which the descriptions fail *)

(** The claim of C1 fails on a status holding U+0000: bob's update of the
    existing idea 1 is rejected when the parameters are bound, the answer
    is 500 and no row is written. *)
Lemma update_with_nul_status :
  let req := as_bob "1" [("status", JStr (String Ascii.zero ""))] in
  authenticated sample_libs req one_idea
    (mkAuthUser 2 "bob" "bob@example.org") /\
  find (fun r => i_id r =? 1) [foo] = Some foo /\
  update_idea sample_libs req one_idea =
    (Ok (mkResponse 500 (Message "Server error.")), one_idea).
Proof.
  cbv zeta; split; [intros next; reflexivity|].
  split; reflexivity.
Qed.

(** The claim of C10 fails on an id that is no integer: no idea has the id
    "abc", yet the answer is 500, not 200. *)
Lemma update_of_non_integer_id :
  let req := as_bob "abc" [("status", JStr "Done")] in
  authenticated sample_libs req one_idea
    (mkAuthUser 2 "bob" "bob@example.org") /\
  (forall i, In i [foo] -> decimal (i_id i) <> params_id req) /\
  update_idea sample_libs req one_idea =
    (Ok (mkResponse 500 (Message "Server error.")), one_idea).
Proof.
  cbv zeta; split; [intros next; reflexivity|].
  split; [intros i [<-|[]]; discriminate|reflexivity].
Qed.

(** When bcrypt rejects the comparison, a login on a registered email is
    answered 500, one on an email nobody has 400. *)
Lemma login_compare_rejected (L : libs) (req1 req2 : request)
    (db1 db2 : database) (t1 t2 : table user) (u : user) (e : exn) :
  truthy (prop (req_body req1) "email") = true ->
  truthy (prop (req_body req1) "password") = true ->
  truthy (prop (req_body req2) "email") = true ->
  truthy (prop (req_body req2) "password") = true ->
  accepted (prop (req_body req1) "email") = true ->
  accepted (prop (req_body req2) "email") = true ->
  users db1 = Some t1 ->
  (forall x, In x (rows t1) ->
     text_eq (u_email x) (pg_text (prop (req_body req1) "email")) = false) ->
  users db2 = Some t2 ->
  find (fun x => text_eq (u_email x) (pg_text (prop (req_body req2) "email")))
    (rows t2) = Some u ->
  bcrypt_compare L (prop (req_body req2) "password") (u_password u) = Throw e ->
  login L req1 db1 =
    (Ok (mkResponse 400 (Message "Invalid credentials.")), db1) /\
  login L req2 db2 = (Ok (mkResponse 500 (Message "Server error.")), db2).
Proof.
  intros He1 Hp1 He2 Hp2 Ha1 Ha2 Ht1 Hnone Ht2 Hfound Hcmp; split.
  - unfold login, select_credentials_by_email, binding; cbn [forallb].
    rewrite He1, Hp1, Ha1; cbn [negb orb andb].
    unfold_monad; rewrite Ht1, (filter_none _ _ Hnone); reflexivity.
  - unfold login, select_credentials_by_email, binding; cbn [forallb].
    rewrite He2, Hp2, Ha2; cbn [negb orb andb].
    destruct (filter_first _ _ _ Hfound) as [l' Hl'].
    unfold_monad; rewrite Ht2, Hl'; cbn [map]; rewrite Hcmp; reflexivity.
Qed.

(** C7, at its failing input.  The same wrong password, the number 12345,
    is tried on an email nobody has and on alice's: the first attempt is
    answered 400 "Invalid credentials.", the second 500 "Server error.",
    which tells that alice's email is registered. *)
Theorem login_numeric_password_tells :
  let wrong := JNum (mkNumber false "12345") in
  login sample_libs
    (anonymous [("email", JStr "carol@example.org"); ("password", wrong)])
    one_idea =
    (Ok (mkResponse 400 (Message "Invalid credentials.")), one_idea) /\
  login sample_libs
    (anonymous [("email", JStr "alice@example.org"); ("password", wrong)])
    one_idea =
    (Ok (mkResponse 500 (Message "Server error.")), one_idea).
Proof.
  apply (login_compare_rejected sample_libs _ _ one_idea one_idea two_users
           two_users alice (LibraryError "bcrypt.compare"));
    try reflexivity.
  intros x [<-|[<-|[]]]; reflexivity.
Qed.
